(** * Gilt ladder calculator: the calculation engine of [app.py]

    A shallow embedding of the class [GiltLadderCalculator] (yield to
    maturity, income-tax banding, bond-ladder allocation) and the
    properties of these three methods, followed by the computations of the
    page, [main], that calls them.

    Numbers.  Python's [float] and [int] operands of the three methods are
    embedded as exact rationals ([Q]); an integer count (the ladder length,
    a calendar year) is a [Z].  Rounding of binary floating point is not
    part of this model: every equation below is an equation of exact
    arithmetic, stated with [==] on [Q].

    Effects.  A method is a computation that may raise (Python's [/]
    raises [ZeroDivisionError] on a zero divisor, for [int] and [float]
    alike) and that may read the wall clock ([datetime.now()]).  Both are
    explicit: a computation takes the world, i.e. the years that the
    successive clock reads will return, and gives back either a value with
    the remaining world or the exception raised. *)

From Stdlib Require Import String.
From Stdlib Require Import QArith ZArith List Lia Lqa Qabs Bool.
Import ListNotations.

Open Scope Q_scope.

(** ** Exceptions, the clock and the monad of methods *)

Inductive exn : Type :=
| ZeroDivisionError.

Inductive result (A : Type) : Type :=
| Ok (a : A)
| Raise (e : exn).

Arguments Ok {A} a.
Arguments Raise {A} e.

(** The world seen by the program: [upcoming_years w i] is the calendar
    year returned by the [i]-th next call of [datetime.now().year]. *)
Record World : Type := mkWorld { upcoming_years : nat -> Z }.

Definition py (A : Type) : Type := World -> result (A * World).

Definition ret {A : Type} (a : A) : py A := fun w => Ok (a, w).

Definition bind {A B : Type} (c : py A) (k : A -> py B) : py B :=
  fun w =>
    match c w with
    | Ok (a, w') => k a w'
    | Raise e => Raise e
    end.

Definition raise {A : Type} (e : exn) : py A := fun _ => Raise e.

Declare Scope py_scope.
Delimit Scope py_scope with py.
Notation "x <- c ;; k" := (bind c (fun x => k))
  (at level 61, c at next level, right associativity) : py_scope.
Open Scope py_scope.

(** The world after one reading of the clock. *)
Definition after_read (w : World) : World :=
  mkWorld (fun i => upcoming_years w (S i)).

(** [datetime.now().year]: consumes one reading of the clock. *)
Definition datetime_now_year : py Z :=
  fun w => Ok (upcoming_years w 0%nat, after_read w).

(** Python's true division [a / b]. *)
Definition truediv (a b : Q) : py Q :=
  if Qeq_bool b 0 then raise ZeroDivisionError else ret (a / b).

Infix "//" := truediv (at level 40, left associativity) : py_scope.

(** [a > b] on numbers. *)
Definition Qgtb (a b : Q) : bool := negb (Qle_bool a b).

(** [range(lo, hi)]. *)
Definition range (lo hi : Z) : list Z :=
  map (fun i => (lo + Z.of_nat i)%Z) (seq 0 (Z.to_nat (hi - lo))).

(** [for x in xs: body], the loop state passed along explicitly. *)
Fixpoint for_each {A S : Type} (xs : list A) (body : A -> S -> py S) (s : S)
  : py S :=
  match xs with
  | [] => ret s
  | x :: xs' => s' <- body x s ;; for_each xs' body s'
  end.

(** The value of a run, the final world forgotten. *)
Definition value {A : Type} (r : result (A * World)) : result A :=
  match r with
  | Ok (a, _) => Ok a
  | Raise e => Raise e
  end.

(** [sum] of a column. *)
Definition Qsum (xs : list Q) : Q := fold_right Qplus 0 xs.

(** ** The class [GiltLadderCalculator] *)

Record GiltLadderCalculator : Type := {
  personal_allowance : Q;
  basic_rate_threshold : Q;
  higher_rate_threshold : Q
}.

(** [__init__]: the 2024/25 tax year. *)
Definition __init__ : GiltLadderCalculator := {|
  personal_allowance := 12570;
  basic_rate_threshold := 50270;
  higher_rate_threshold := 125140
|}.

(** *** [calculate_yield_to_maturity] *)

Definition calculate_yield_to_maturity (self : GiltLadderCalculator)
    (price face_value coupon_rate years_to_maturity : Q) : py Q :=
  rate <- coupon_rate // 100 ;;
  let annual_coupon := face_value * rate in
  capital_gain <- (face_value - price) // years_to_maturity ;;
  average_price <- (face_value + price) // 2 ;;
  q <- (annual_coupon + capital_gain) // average_price ;;
  let ytm := q * 100 in
  ret ytm.

(** *** [calculate_tax_liability] *)

(** The dictionary returned by [calculate_tax_liability]. *)
Record TaxDict : Type := {
  gross_income : Q;
  tax_liability : Q;
  net_income : Q;
  effective_rate : Q
}.

(** The four branches of the [if]/[elif] chain, one per band. *)
Definition tax_allowance_band (self : GiltLadderCalculator) (total_income : Q)
  : Q := 0.

Definition tax_basic_band (self : GiltLadderCalculator) (total_income : Q)
  : Q :=
  (total_income - personal_allowance self) * 0.20.

Definition tax_higher_band (self : GiltLadderCalculator) (total_income : Q)
  : Q :=
  let basic_tax :=
    (basic_rate_threshold self - personal_allowance self) * 0.20 in
  let higher_tax := (total_income - basic_rate_threshold self) * 0.40 in
  basic_tax + higher_tax.

Definition tax_additional_band (self : GiltLadderCalculator)
    (total_income : Q) : Q :=
  let basic_tax :=
    (basic_rate_threshold self - personal_allowance self) * 0.20 in
  let higher_tax :=
    (higher_rate_threshold self - basic_rate_threshold self) * 0.40 in
  let additional_tax := (total_income - higher_rate_threshold self) * 0.45 in
  basic_tax + higher_tax + additional_tax.

(** The value assigned to [tax] by the chain. *)
Definition tax_for (self : GiltLadderCalculator) (total_income : Q) : Q :=
  if Qle_bool total_income (personal_allowance self) then
    tax_allowance_band self total_income
  else if Qle_bool total_income (basic_rate_threshold self) then
    tax_basic_band self total_income
  else if Qle_bool total_income (higher_rate_threshold self) then
    tax_higher_band self total_income
  else
    tax_additional_band self total_income.

Definition calculate_tax_liability (self : GiltLadderCalculator)
    (income pension_income : Q) : py TaxDict :=
  let total_income := income + pension_income in
  let tax := tax_for self total_income in
  rate <- (if Qgtb total_income 0
           then (q <- tax // total_income ;; ret (q * 100))
           else ret 0) ;;
  ret {| gross_income := total_income;
         tax_liability := tax;
         net_income := total_income - tax;
         effective_rate := rate |}.

(** *** [create_bond_ladder] *)

(** A row of the returned data frame. *)
Record LadderRow : Type := {
  Maturity_Year : Z;
  Allocation : Q;
  Target_Yield : Q;
  Annual_Income : Q;
  Allocation_Percentage : Q
}.

Definition DataFrame : Type := list LadderRow.

(** The slope of the yield curve, the literal [0.1] of the loop body. *)
Definition yield_curve_slope : Q := 0.1.

(** The body of the loop, for one [year]; [ladder_data] is the list being
    appended to. *)
Definition ladder_step (total_investment target_yield allocation_per_year : Q)
    (year : Z) (ladder_data : DataFrame) : py DataFrame :=
  now <- datetime_now_year ;;
  let maturity_year := (now + year)%Z in
  let estimated_yield :=
    target_yield + inject_Z (year - 1) * yield_curve_slope in
  rate <- estimated_yield // 100 ;;
  let annual_income := allocation_per_year * rate in
  share <- allocation_per_year // total_investment ;;
  ret (ladder_data ++
       [{| Maturity_Year := maturity_year;
           Allocation := allocation_per_year;
           Target_Yield := estimated_yield;
           Annual_Income := annual_income;
           Allocation_Percentage := share * 100 |}]).

Definition create_bond_ladder (self : GiltLadderCalculator)
    (total_investment : Q) (ladder_years : Z) (target_yield : Q)
  : py DataFrame :=
  allocation_per_year <- total_investment // inject_Z ladder_years ;;
  ladder_data <-
    for_each (range 1 (ladder_years + 1))
      (ladder_step total_investment target_yield allocation_per_year) [] ;;
  ret ladder_data.

(** A clock that stays in year [y]. *)
Definition fixed_clock (y : Z) : World := mkWorld (fun _ => y).

(** ** Closed forms and relations used in the statements *)

(** The closed form behind [calculate_yield_to_maturity]. *)
Definition ytm_formula (price face_value coupon_rate years_to_maturity : Q)
  : Q :=
  (face_value * (coupon_rate / 100) +
   (face_value - price) / years_to_maturity) /
  ((face_value + price) / 2) * 100.

(** The row written for [year] when the clock reads [now]. *)
Definition ladder_row (total_investment : Q) (ladder_years : Z)
    (target_yield : Q) (now year : Z) : LadderRow :=
  let allocation_per_year := total_investment / inject_Z ladder_years in
  let estimated_yield :=
    target_yield + inject_Z (year - 1) * yield_curve_slope in
  {| Maturity_Year := now + year;
     Allocation := allocation_per_year;
     Target_Yield := estimated_yield;
     Annual_Income := allocation_per_year * (estimated_yield / 100);
     Allocation_Percentage := allocation_per_year / total_investment * 100 |}.

(** The whole ladder in closed form: row [i] (from 0) is for year [1 + i]
    and uses the [i]-th reading of the clock. *)
Definition ladder_rows (total_investment : Q) (ladder_years : Z)
    (target_yield : Q) (w : World) : DataFrame :=
  map (fun i => ladder_row total_investment ladder_years target_yield
                  (upcoming_years w i) (1 + Z.of_nat i))
      (seq 0 (Z.to_nat ladder_years)).

(** Two worlds whose clocks agree on the next [n] readings. *)
Definition same_clock (n : nat) (w1 w2 : World) : Prop :=
  forall i, (i < n)%nat -> upcoming_years w1 i = upcoming_years w2 i.

(** A row with its calendar year blanked out. *)
Definition without_year (r : LadderRow) : LadderRow :=
  {| Maturity_Year := 0;
     Allocation := Allocation r;
     Target_Yield := Target_Yield r;
     Annual_Income := Annual_Income r;
     Allocation_Percentage := Allocation_Percentage r |}.

Definition result_map {A B : Type} (f : A -> B) (r : result A) : result B :=
  match r with
  | Ok a => Ok (f a)
  | Raise e => Raise e
  end.

(** A clock that reads 2024 five times and 2025 from then on. *)
Definition new_year_after_five : World :=
  mkWorld (fun i => if (i <? 5)%nat then 2024%Z else 2025%Z).

(** ** The page: [main]

    [main] reads the sidebar widgets, calls the calculator and hands numbers
    to the rendering functions of the user interface.  The widgets are the
    argument of the model, the numbers handed to the renderer are its
    result; the text formatting and the drawing of the page are not part of
    it.  The widgets keep their values within [within_widget_bounds]; the
    model is meant for such values only (a ladder then has rows, and the
    column sums of [main] are sums over the rows). *)

(** The values of the sidebar widgets, under the names [main] gives them.
    The [number_input]s and the two integer sliders give an [int], the
    other sliders a [float]. *)
Module Sidebar.
Record t : Type := {
  sipp_value : Z;
  isa_value : Z;
  target_income : Z;
  pension_income : Z;
  ladder_years : Z;
  target_yield : Q;
  isa_yield_premium : Q;
  cash_buffer_percent : Z
}.
End Sidebar.

(** The [min_value] and [max_value] of the widgets. *)
Definition within_widget_bounds (ui : Sidebar.t) : Prop :=
  (0 <= Sidebar.sipp_value ui)%Z /\
  (0 <= Sidebar.isa_value ui)%Z /\
  (0 <= Sidebar.target_income ui)%Z /\
  (0 <= Sidebar.pension_income ui)%Z /\
  (3 <= Sidebar.ladder_years ui <= 10)%Z /\
  (2 <= Sidebar.target_yield ui /\ Sidebar.target_yield ui <= 8) /\
  (0 <= Sidebar.isa_yield_premium ui /\ Sidebar.isa_yield_premium ui <= 2) /\
  (0 <= Sidebar.cash_buffer_percent ui <= 20)%Z.

(** The name of a recommended gilt: a fixed name, or the f-string
    ["UK Treasury Gilt {year}"], kept with its year unformatted. *)
Inductive GiltName : Type :=
| Named (name : string)
| TreasuryGilt (year : Z).

(** The [if]/[elif] chain on the maturity year: name and ISIN. *)
Definition gilt_recommendation (year : Z) : GiltName * string :=
  if (year =? 2028)%Z then
    (Named "UK Treasury 1.625% 2028", "GB00BFWFPP71"%string)
  else if (year =? 2029)%Z then
    (Named "UK Treasury 0.875% 2029", "GB00BJMHB534"%string)
  else if (year =? 2030)%Z then
    (Named "UK Treasury 0.375% 2030", "GB00BKPWFW93"%string)
  else if (year =? 2031)%Z then
    (Named "UK Treasury 0.25% 2031", "GB00BN65R313"%string)
  else if (year =? 2032)%Z then
    (Named "UK Treasury 4.25% 2032", "GB00004893086"%string)
  else
    (TreasuryGilt year, "TBD"%string).

(** [for _, row in sipp_ladder.iterrows(): ... append(...)]. *)
Definition recommend_gilts (sipp_ladder : DataFrame)
  : list (GiltName * string) :=
  fold_left
    (fun gilt_recommendations row =>
       gilt_recommendations ++ [gilt_recommendation (Maturity_Year row)])
    sipp_ladder [].

(** What [main] hands to the page. *)
Record Dashboard : Type := {
  sipp_ladder : DataFrame;
  isa_ladder : DataFrame;
  total_bond_income : Q;
  tax_calc : TaxDict;
  income_vs_target : Q;
  net_income_less_target : Q;
  allocation_data : list (string * Q);
  sipp_cash : Q;
  isa_cash : Q;
  gilt_recommendations : list (GiltName * string)
}.

Definition main (ui : Sidebar.t) : py Dashboard :=
  let calc := __init__ in
  let sipp_value := inject_Z (Sidebar.sipp_value ui) in
  let isa_value := inject_Z (Sidebar.isa_value ui) in
  let target_income := inject_Z (Sidebar.target_income ui) in
  let pension_income := inject_Z (Sidebar.pension_income ui) in
  let ladder_years := Sidebar.ladder_years ui in
  let target_yield := Sidebar.target_yield ui in
  let isa_yield_premium := Sidebar.isa_yield_premium ui in
  let cash_buffer_percent := inject_Z (Sidebar.cash_buffer_percent ui) in
  sipp_buffer <- cash_buffer_percent // 100 ;;
  let sipp_cash := sipp_value * sipp_buffer in
  isa_buffer <- cash_buffer_percent // 100 ;;
  let isa_cash := isa_value * isa_buffer in
  let sipp_invested := sipp_value - sipp_cash in
  let isa_invested := isa_value - isa_cash in
  sipp_ladder <-
    create_bond_ladder calc sipp_invested ladder_years target_yield ;;
  isa_ladder <-
    create_bond_ladder calc isa_invested ladder_years
      (target_yield + isa_yield_premium) ;;
  let total_ladder_income :=
    Qsum (map Annual_Income sipp_ladder) +
    Qsum (map Annual_Income isa_ladder) in
  let total_bond_income := total_ladder_income in
  tax_calc <- calculate_tax_liability calc total_bond_income pension_income ;;
  ratio <- net_income tax_calc // target_income ;;
  let income_vs_target := (ratio - 1) * 100 in
  let allocation_data :=
    [("SIPP Bonds"%string, sipp_invested); ("ISA Bonds"%string, isa_invested);
     ("SIPP Cash"%string, sipp_cash); ("ISA Cash"%string, isa_cash)] in
  ret {| sipp_ladder := sipp_ladder;
         isa_ladder := isa_ladder;
         total_bond_income := total_bond_income;
         tax_calc := tax_calc;
         income_vs_target := income_vs_target;
         net_income_less_target := net_income tax_calc - target_income;
         allocation_data := allocation_data;
         sipp_cash := sipp_cash;
         isa_cash := isa_cash;
         gilt_recommendations := recommend_gilts sipp_ladder |}.

(** The widgets as the page first shows them (each widget's [value]). *)
Definition default_sidebar : Sidebar.t := {|
  Sidebar.sipp_value := 565000;
  Sidebar.isa_value := 92000;
  Sidebar.target_income := 40000;
  Sidebar.pension_income := 13000;
  Sidebar.ladder_years := 5;
  Sidebar.target_yield := 4.5;
  Sidebar.isa_yield_premium := 0.5;
  Sidebar.cash_buffer_percent := 5
|}.


(** A clock whose readings never go back. *)
Definition clock_never_goes_back (w : World) : Prop :=
  forall i, (upcoming_years w i <= upcoming_years w (S i))%Z.

(** The cash kept back from an account and the money put into its
    ladder, as [main] computes them from the value of the account and the
    cash buffer in percent. *)
Definition cash_kept (account_value percent : Z) : Q :=
  inject_Z account_value * (inject_Z percent / 100).

Definition invested (account_value percent : Z) : Q :=
  inject_Z account_value - cash_kept account_value percent.

(** The record that [calculate_tax_liability] returns. *)
Definition tax_record (self : GiltLadderCalculator) (income pension : Q)
  : TaxDict :=
  {| gross_income := income + pension;
     tax_liability := tax_for self (income + pension);
     net_income := income + pension - tax_for self (income + pension);
     effective_rate :=
       if Qgtb (income + pension) 0
       then tax_for self (income + pension) / (income + pension) * 100
       else 0 |}.

(** What [main] hands to the page, given the two ladders it built. *)
Definition dashboard_of (ui : Sidebar.t) (sipp_rows isa_rows : DataFrame)
  : Dashboard :=
  let percent := Sidebar.cash_buffer_percent ui in
  let bond_income :=
    Qsum (map Annual_Income sipp_rows) + Qsum (map Annual_Income isa_rows) in
  let tax :=
    tax_record __init__ bond_income (inject_Z (Sidebar.pension_income ui)) in
  {| sipp_ladder := sipp_rows;
     isa_ladder := isa_rows;
     total_bond_income := bond_income;
     tax_calc := tax;
     income_vs_target :=
       (net_income tax / inject_Z (Sidebar.target_income ui) - 1) * 100;
     net_income_less_target :=
       net_income tax - inject_Z (Sidebar.target_income ui);
     allocation_data :=
       [("SIPP Bonds"%string, invested (Sidebar.sipp_value ui) percent);
        ("ISA Bonds"%string, invested (Sidebar.isa_value ui) percent);
        ("SIPP Cash"%string, cash_kept (Sidebar.sipp_value ui) percent);
        ("ISA Cash"%string, cash_kept (Sidebar.isa_value ui) percent)];
     sipp_cash := cash_kept (Sidebar.sipp_value ui) percent;
     isa_cash := cash_kept (Sidebar.isa_value ui) percent;
     gilt_recommendations := recommend_gilts sipp_rows |}.

(** * Properties *)

(** The ladder of 100,000 over five years at 4.5 percent, read in 2024:
    yields 4.5 to 4.9, 20,000 a year, incomes 900 to 980. *)
Example ladder_100000_5 :
  match value (create_bond_ladder __init__ 100000 5 4.5 (fixed_clock 2024))
  with
  | Ok rows =>
      map Maturity_Year rows = [2025; 2026; 2027; 2028; 2029]%Z /\
      map (fun r => Qred (Allocation r)) rows =
        [20000; 20000; 20000; 20000; 20000] /\
      map (fun r => Qred (Target_Yield r)) rows =
        map Qred [4.5; 4.6; 4.7; 4.8; 4.9] /\
      map (fun r => Qred (Annual_Income r)) rows = [900; 920; 940; 960; 980] /\
      map (fun r => Qred (Allocation_Percentage r)) rows = [20; 20; 20; 20; 20]
  | Raise _ => False
  end.
Proof. vm_compute. repeat split. Qed.

(** ** Basic facts: division, comparisons, the monad *)

Lemma truediv_ok (a b : Q) (w : World) :
  ~ b == 0 -> (a // b) w = Ok (a / b, w).
Proof.
  intros Hb. unfold truediv.
  destruct (Qeq_bool b 0) eqn:E; [| reflexivity].
  apply Qeq_bool_iff in E. contradiction.
Qed.

Lemma truediv_zero (a b : Q) (w : World) :
  b == 0 -> (a // b) w = Raise ZeroDivisionError.
Proof.
  intros Hb. unfold truediv.
  apply Qeq_bool_iff in Hb. rewrite Hb. reflexivity.
Qed.

Lemma truediv_100 (a : Q) (w : World) : (a // 100) w = Ok (a / 100, w).
Proof. reflexivity. Qed.

Lemma truediv_2 (a : Q) (w : World) : (a // 2) w = Ok (a / 2, w).
Proof. reflexivity. Qed.

Lemma Qgtb_true (a b : Q) : Qgtb a b = true <-> b < a.
Proof.
  unfold Qgtb. rewrite negb_true_iff, <- not_true_iff_false, Qle_bool_iff.
  split; [apply Qnot_le_lt | apply Qlt_not_le].
Qed.

Lemma Qgtb_false (a b : Q) : Qgtb a b = false <-> a <= b.
Proof.
  unfold Qgtb. rewrite negb_false_iff. apply Qle_bool_iff.
Qed.

Lemma Qle_bool_false (a b : Q) : Qle_bool a b = false <-> b < a.
Proof.
  rewrite <- not_true_iff_false, Qle_bool_iff.
  split; [apply Qnot_le_lt | apply Qlt_not_le].
Qed.

Lemma bind_ok {A B : Type} (c : py A) (k : A -> py B) (w w' : World) (a : A) :
  c w = Ok (a, w') -> (x <- c ;; k x) w = k a w'.
Proof. intros H. unfold bind. rewrite H. reflexivity. Qed.

Lemma bind_raise {A B : Type} (c : py A) (k : A -> py B) (w : World) (e : exn) :
  c w = Raise e -> (x <- c ;; k x) w = Raise e.
Proof. intros H. unfold bind. rewrite H. reflexivity. Qed.

(** Case analysis on a comparison [a <= b] met in a goal. *)
Ltac case_le a b :=
  let E := fresh "Hle" in
  destruct (Qle_bool a b) eqn:E;
  [ apply Qle_bool_iff in E | apply Qle_bool_false in E ].

(** ** The yield to maturity *)

Lemma calculate_yield_to_maturity_ok self price face_value coupon_rate years w :
  ~ years == 0 -> ~ face_value + price == 0 ->
  calculate_yield_to_maturity self price face_value coupon_rate years w =
  Ok (ytm_formula price face_value coupon_rate years, w).
Proof.
  intros Hy Hp. unfold calculate_yield_to_maturity.
  rewrite (bind_ok _ _ _ _ _ (truediv_100 _ _)).
  rewrite (bind_ok _ _ _ _ _ (truediv_ok _ _ _ Hy)).
  rewrite (bind_ok _ _ _ _ _ (truediv_2 _ _)).
  assert (Ha : ~ (face_value + price) / 2 == 0).
  { intros H. apply Hp.
    setoid_replace (face_value + price) with ((face_value + price) / 2 * 2)
      by field.
    rewrite H. reflexivity. }
  rewrite (bind_ok _ _ _ _ _ (truediv_ok _ _ _ Ha)).
  reflexivity.
Qed.

Lemma calculate_yield_to_maturity_zero_years self price face_value coupon_rate
    years w :
  years == 0 ->
  calculate_yield_to_maturity self price face_value coupon_rate years w =
  Raise ZeroDivisionError.
Proof.
  intros Hy. unfold calculate_yield_to_maturity.
  rewrite (bind_ok _ _ _ _ _ (truediv_100 _ _)).
  apply bind_raise. apply truediv_zero. exact Hy.
Qed.

Lemma calculate_yield_to_maturity_zero_average self price face_value
    coupon_rate years w :
  ~ years == 0 -> face_value + price == 0 ->
  calculate_yield_to_maturity self price face_value coupon_rate years w =
  Raise ZeroDivisionError.
Proof.
  intros Hy Hp. unfold calculate_yield_to_maturity.
  rewrite (bind_ok _ _ _ _ _ (truediv_100 _ _)).
  rewrite (bind_ok _ _ _ _ _ (truediv_ok _ _ _ Hy)).
  rewrite (bind_ok _ _ _ _ _ (truediv_2 _ _)).
  apply bind_raise. apply truediv_zero. rewrite Hp. reflexivity.
Qed.

(** ** The tax computation *)

(** [calculate_tax_liability] never raises and never touches the world:
    the division of the effective rate is guarded by [total_income > 0]. *)
Lemma calculate_tax_liability_run self income pension w :
  calculate_tax_liability self income pension w =
  Ok ({| gross_income := income + pension;
         tax_liability := tax_for self (income + pension);
         net_income := income + pension - tax_for self (income + pension);
         effective_rate :=
           if Qgtb (income + pension) 0
           then tax_for self (income + pension) / (income + pension) * 100
           else 0 |}, w).
Proof.
  unfold calculate_tax_liability.
  destruct (Qgtb (income + pension) 0) eqn:E.
  - apply Qgtb_true in E.
    assert (Hnz : ~ income + pension == 0) by lra.
    unfold bind. rewrite (truediv_ok _ _ _ Hnz). reflexivity.
  - reflexivity.
Qed.

Section Bands.

Variable self : GiltLadderCalculator.
Hypothesis allowance_le_basic :
  personal_allowance self <= basic_rate_threshold self.
Hypothesis basic_le_higher :
  basic_rate_threshold self <= higher_rate_threshold self.

Ltac bands x :=
  case_le x (personal_allowance self);
  case_le x (basic_rate_threshold self);
  case_le x (higher_rate_threshold self).

(** Between two incomes the tax grows, by at most 45 percent of the
    difference (the top marginal rate). *)
Lemma tax_for_slope (x y : Q) :
  x <= y ->
  0 <= tax_for self y - tax_for self x /\
  tax_for self y - tax_for self x <= 0.45 * (y - x).
Proof.
  intros Hxy.
  unfold tax_for, tax_allowance_band, tax_basic_band, tax_higher_band,
    tax_additional_band.
  bands x; bands y; split; lra.
Qed.

Lemma tax_for_monotone (x y : Q) :
  x <= y -> tax_for self x <= tax_for self y.
Proof. intros Hxy. destruct (tax_for_slope x y Hxy). lra. Qed.

Lemma tax_for_nonneg (x : Q) : 0 <= tax_for self x.
Proof.
  unfold tax_for, tax_allowance_band, tax_basic_band, tax_higher_band,
    tax_additional_band.
  bands x; lra.
Qed.

Lemma tax_for_below_allowance (x : Q) :
  x <= personal_allowance self -> tax_for self x = 0.
Proof.
  intros Hx. unfold tax_for. apply Qle_bool_iff in Hx. rewrite Hx.
  reflexivity.
Qed.

(** Lipschitz with constant 0.45, in either direction. *)
Lemma tax_for_lipschitz (x y : Q) :
  Qabs (tax_for self y - tax_for self x) <= 0.45 * Qabs (y - x).
Proof.
  destruct (Qlt_le_dec x y) as [Hlt | Hge].
  - destruct (tax_for_slope x y (Qlt_le_weak _ _ Hlt)) as [H0 H1].
    rewrite (Qabs_pos _ H0). rewrite Qabs_pos by lra. exact H1.
  - destruct (tax_for_slope y x Hge) as [H0 H1].
    rewrite (Qabs_neg (tax_for self y - tax_for self x)) by lra.
    rewrite (Qabs_neg (y - x)) by lra. lra.
Qed.

(** Continuity at every income, epsilon-delta style. *)
Lemma tax_for_continuous (x eps : Q) :
  0 < eps ->
  exists delta, 0 < delta /\
    forall y, Qabs (y - x) < delta ->
              Qabs (tax_for self y - tax_for self x) < eps.
Proof.
  intros Heps. exists eps. split; [exact Heps |].
  intros y Hy. pose proof (tax_for_lipschitz x y) as HL.
  pose proof (Qabs_nonneg (y - x)) as Hn. lra.
Qed.

(** At a band edge the branch below and the branch above agree. *)
Lemma bands_meet_at_allowance :
  tax_allowance_band self (personal_allowance self) ==
  tax_basic_band self (personal_allowance self).
Proof. unfold tax_allowance_band, tax_basic_band. lra. Qed.

Lemma bands_meet_at_basic :
  tax_basic_band self (basic_rate_threshold self) ==
  tax_higher_band self (basic_rate_threshold self).
Proof. unfold tax_basic_band, tax_higher_band. lra. Qed.

Lemma bands_meet_at_higher :
  tax_higher_band self (higher_rate_threshold self) ==
  tax_additional_band self (higher_rate_threshold self).
Proof. unfold tax_higher_band, tax_additional_band. lra. Qed.

(** An increment [d] above an edge that stays within the next band is
    taxed at that band's rate. *)
Lemma increment_above_allowance (d : Q) :
  0 <= d -> personal_allowance self + d <= basic_rate_threshold self ->
  tax_for self (personal_allowance self + d) -
  tax_for self (personal_allowance self) == d * 0.20.
Proof.
  intros Hd Hin.
  unfold tax_for, tax_allowance_band, tax_basic_band, tax_higher_band,
    tax_additional_band.
  bands (personal_allowance self + d); bands (personal_allowance self); lra.
Qed.

Lemma increment_above_basic (d : Q) :
  0 <= d -> basic_rate_threshold self + d <= higher_rate_threshold self ->
  tax_for self (basic_rate_threshold self + d) -
  tax_for self (basic_rate_threshold self) == d * 0.40.
Proof.
  intros Hd Hin.
  unfold tax_for, tax_allowance_band, tax_basic_band, tax_higher_band,
    tax_additional_band.
  bands (basic_rate_threshold self + d); bands (basic_rate_threshold self);
    lra.
Qed.

Lemma increment_above_higher (d : Q) :
  0 <= d ->
  tax_for self (higher_rate_threshold self + d) -
  tax_for self (higher_rate_threshold self) == d * 0.45.
Proof.
  intros Hd.
  unfold tax_for, tax_allowance_band, tax_basic_band, tax_higher_band,
    tax_additional_band.
  bands (higher_rate_threshold self + d); bands (higher_rate_threshold self);
    lra.
Qed.

End Bands.

Lemma init_allowance_le_basic :
  personal_allowance __init__ <= basic_rate_threshold __init__.
Proof. discriminate. Qed.

Lemma init_basic_le_higher :
  basic_rate_threshold __init__ <= higher_rate_threshold __init__.
Proof. discriminate. Qed.

(** ** The ladder *)

Lemma inject_Z_zero (n : Z) : inject_Z n == 0 <-> n = 0%Z.
Proof. unfold Qeq. simpl. lia. Qed.

Lemma range_from_1 (n : Z) :
  range 1 (n + 1) = map (fun i => (1 + Z.of_nat i)%Z) (seq 0 (Z.to_nat n)).
Proof. unfold range. replace (n + 1 - 1)%Z with n by lia. reflexivity. Qed.

Section Ladder.

Variables (total_investment : Q) (ladder_years : Z) (target_yield : Q).

Let allocation_per_year : Q := total_investment / inject_Z ladder_years.
Let step := ladder_step total_investment target_yield allocation_per_year.
Let row := ladder_row total_investment ladder_years target_yield.

Lemma ladder_step_ok (year : Z) (ladder_data : DataFrame) (w : World) :
  ~ total_investment == 0 ->
  step year ladder_data w =
  Ok (ladder_data ++ [row (upcoming_years w 0) year], after_read w).
Proof.
  intros Hnz. unfold step, ladder_step, datetime_now_year.
  unfold bind at 1. rewrite (bind_ok _ _ _ _ _ (truediv_100 _ _)).
  rewrite (bind_ok _ _ _ _ _ (truediv_ok _ _ _ Hnz)).
  reflexivity.
Qed.

Lemma ladder_step_zero (year : Z) (ladder_data : DataFrame) (w : World) :
  total_investment == 0 ->
  step year ladder_data w = Raise ZeroDivisionError.
Proof.
  intros Hz. unfold step, ladder_step, datetime_now_year.
  unfold bind at 1. rewrite (bind_ok _ _ _ _ _ (truediv_100 _ _)).
  apply bind_raise. apply truediv_zero. exact Hz.
Qed.

(** The loop from index [s] on, [m] more iterations. *)
Lemma ladder_loop_ok (m : nat) :
  ~ total_investment == 0 ->
  forall (s : nat) (ladder_data : DataFrame) (w : World),
  exists w',
    for_each (map (fun i => (1 + Z.of_nat i)%Z) (seq s m)) step ladder_data w
    = Ok (ladder_data ++
          map (fun j => row (upcoming_years w j) (1 + Z.of_nat (s + j)))
              (seq 0 m), w').
Proof.
  intros Hnz. induction m as [| m IH]; intros s ladder_data w.
  - exists w. simpl. rewrite app_nil_r. reflexivity.
  - destruct (IH (S s) (ladder_data ++ [row (upcoming_years w 0)
                                            (1 + Z.of_nat s)])
                (after_read w)) as [w' Hw'].
    exists w'. cbn [seq map for_each].
    rewrite (bind_ok _ _ _ _ _ (ladder_step_ok _ _ _ Hnz)).
    rewrite Hw'. rewrite <- app_assoc. cbn [app].
    rewrite Nat.add_0_r. rewrite <- seq_shift, map_map.
    do 4 f_equal. apply map_ext. intros j. cbn [after_read upcoming_years].
    rewrite Nat.add_succ_r. reflexivity.
Qed.

Lemma create_bond_ladder_ok (self : GiltLadderCalculator) (w : World) :
  ~ total_investment == 0 -> (1 <= ladder_years)%Z ->
  exists w',
    create_bond_ladder self total_investment ladder_years target_yield w =
    Ok (ladder_rows total_investment ladder_years target_yield w, w').
Proof.
  intros Hnz Hn. unfold create_bond_ladder.
  assert (Hy : ~ inject_Z ladder_years == 0).
  { rewrite inject_Z_zero. lia. }
  rewrite (bind_ok _ _ _ _ _ (truediv_ok _ _ _ Hy)).
  rewrite range_from_1.
  destruct (ladder_loop_ok (Z.to_nat ladder_years) Hnz 0 [] w) as [w' Hw'].
  exists w'. fold allocation_per_year. fold step.
  rewrite (bind_ok _ _ _ _ _ Hw'). reflexivity.
Qed.

Lemma create_bond_ladder_zero_total (self : GiltLadderCalculator)
    (w : World) :
  total_investment == 0 -> (1 <= ladder_years)%Z ->
  create_bond_ladder self total_investment ladder_years target_yield w =
  Raise ZeroDivisionError.
Proof.
  intros Hz Hn. unfold create_bond_ladder.
  assert (Hy : ~ inject_Z ladder_years == 0).
  { rewrite inject_Z_zero. lia. }
  rewrite (bind_ok _ _ _ _ _ (truediv_ok _ _ _ Hy)).
  rewrite range_from_1.
  destruct (Z.to_nat ladder_years) as [| m] eqn:Em; [lia |].
  cbn [seq map for_each]. fold allocation_per_year. fold step.
  apply bind_raise. apply bind_raise. apply ladder_step_zero. exact Hz.
Qed.

Lemma create_bond_ladder_no_years (self : GiltLadderCalculator) (w : World) :
  ladder_years = 0%Z ->
  create_bond_ladder self total_investment ladder_years target_yield w =
  Raise ZeroDivisionError.
Proof.
  intros Hn. unfold create_bond_ladder. apply bind_raise.
  apply truediv_zero. apply inject_Z_zero. exact Hn.
Qed.

Lemma create_bond_ladder_negative_years (self : GiltLadderCalculator)
    (w : World) :
  (ladder_years < 0)%Z ->
  create_bond_ladder self total_investment ladder_years target_yield w =
  Ok ([], w).
Proof.
  intros Hn. unfold create_bond_ladder.
  assert (Hy : ~ inject_Z ladder_years == 0).
  { rewrite inject_Z_zero. lia. }
  rewrite (bind_ok _ _ _ _ _ (truediv_ok _ _ _ Hy)).
  rewrite range_from_1.
  replace (Z.to_nat ladder_years) with 0%nat by lia.
  reflexivity.
Qed.

End Ladder.

Lemma Qsum_constant {A : Type} (c : Q) (f : A -> Q) (l : list A) :
  (forall a, f a == c) ->
  Qsum (map f l) == inject_Z (Z.of_nat (length l)) * c.
Proof.
  intros Hf. induction l as [| a l IH].
  - simpl. ring.
  - cbn [map Qsum fold_right length]. fold (Qsum (map f l)).
    rewrite IH, Hf, Nat2Z.inj_succ. unfold Z.succ. rewrite inject_Z_plus.
    ring.
Qed.

Lemma ladder_rows_length total_investment ladder_years target_yield w :
  length (ladder_rows total_investment ladder_years target_yield w) =
  Z.to_nat ladder_years.
Proof. unfold ladder_rows. rewrite length_map, length_seq. reflexivity. Qed.

Lemma ladder_rows_nth total_investment ladder_years target_yield w (i : nat) :
  (i < Z.to_nat ladder_years)%nat ->
  nth_error (ladder_rows total_investment ladder_years target_yield w) i =
  Some (ladder_row total_investment ladder_years target_yield
          (upcoming_years w i) (1 + Z.of_nat i)).
Proof.
  intros Hi. unfold ladder_rows. rewrite nth_error_map, nth_error_seq.
  apply Nat.ltb_lt in Hi. rewrite Hi. reflexivity.
Qed.

Lemma ladder_rows_same_clock total_investment ladder_years target_yield w1 w2 :
  same_clock (Z.to_nat ladder_years) w1 w2 ->
  ladder_rows total_investment ladder_years target_yield w1 =
  ladder_rows total_investment ladder_years target_yield w2.
Proof.
  intros Hc. unfold ladder_rows. apply map_ext_in. intros i Hi.
  apply in_seq in Hi. rewrite (Hc i) by lia. reflexivity.
Qed.

Lemma ladder_rows_without_year total_investment ladder_years target_yield
    w1 w2 :
  map without_year
    (ladder_rows total_investment ladder_years target_yield w1) =
  map without_year
    (ladder_rows total_investment ladder_years target_yield w2).
Proof. unfold ladder_rows. rewrite !map_map. reflexivity. Qed.

(** Every run of the ladder builder falls in one of four cases. *)
Lemma create_bond_ladder_cases self total_investment ladder_years target_yield
    w :
  value (create_bond_ladder self total_investment ladder_years target_yield w)
  = if (ladder_years =? 0)%Z then Raise ZeroDivisionError
    else if (ladder_years <? 0)%Z then Ok []
    else if Qeq_bool total_investment 0 then Raise ZeroDivisionError
    else Ok (ladder_rows total_investment ladder_years target_yield w).
Proof.
  destruct (Z.eqb_spec ladder_years 0) as [H0 | H0].
  - rewrite create_bond_ladder_no_years by exact H0. reflexivity.
  - destruct (Z.ltb_spec ladder_years 0) as [Hneg | Hpos].
    + rewrite create_bond_ladder_negative_years by exact Hneg. reflexivity.
    + destruct (Qeq_bool total_investment 0) eqn:Et.
      * apply Qeq_bool_iff in Et.
        rewrite create_bond_ladder_zero_total by (auto; lia). reflexivity.
      * assert (Hnz : ~ total_investment == 0).
        { intros H. apply Qeq_bool_iff in H. congruence. }
        destruct (create_bond_ladder_ok total_investment ladder_years
                    target_yield self w Hnz) as [w' Hw']; [lia |].
        rewrite Hw'. reflexivity.
Qed.

(** * The claims *)

(** ** C1: what the results depend on *)

(** C1, as stated, fails.  With the same total investment, ladder length
    and target yield, [create_bond_ladder] run while the clock reads 2024
    and run while it reads 2025 return different data frames: the
    maturity years are read off the clock. *)
Lemma C1_ladder_depends_on_clock :
  value (create_bond_ladder __init__ 100000 5 4.5 (fixed_clock 2024)) <>
  value (create_bond_ladder __init__ 100000 5 4.5 (fixed_clock 2025)).
Proof. vm_compute. intros H. discriminate H. Qed.

(** C1, amended.  The yield estimate and the tax computation return the
    same result in any two worlds: they depend on their arguments only.
    The ladder builder returns, in any two worlds, results that agree on
    whether an exception is raised and on every column but
    [Maturity_Year]; the two results are equal as soon as the clock gives
    the same years over the [ladder_years] readings of the loop. *)
Theorem C1_results_depend_on_inputs_and_clock
    (self : GiltLadderCalculator) (w1 w2 : World) :
  (forall price face_value coupon_rate years,
     value (calculate_yield_to_maturity self price face_value coupon_rate
              years w1) =
     value (calculate_yield_to_maturity self price face_value coupon_rate
              years w2)) /\
  (forall income pension,
     value (calculate_tax_liability self income pension w1) =
     value (calculate_tax_liability self income pension w2)) /\
  (forall total_investment ladder_years target_yield,
     result_map (map without_year)
       (value (create_bond_ladder self total_investment ladder_years
                 target_yield w1)) =
     result_map (map without_year)
       (value (create_bond_ladder self total_investment ladder_years
                 target_yield w2))) /\
  (forall total_investment ladder_years target_yield,
     same_clock (Z.to_nat ladder_years) w1 w2 ->
     value (create_bond_ladder self total_investment ladder_years
              target_yield w1) =
     value (create_bond_ladder self total_investment ladder_years
              target_yield w2)).
Proof.
  repeat split.
  - intros price face_value coupon_rate years.
    destruct (Qeq_dec years 0) as [Hy | Hy].
    + rewrite !calculate_yield_to_maturity_zero_years by exact Hy.
      reflexivity.
    + destruct (Qeq_dec (face_value + price) 0) as [Hp | Hp].
      * rewrite !calculate_yield_to_maturity_zero_average by assumption.
        reflexivity.
      * rewrite !calculate_yield_to_maturity_ok by assumption. reflexivity.
  - intros income pension. rewrite !calculate_tax_liability_run.
    reflexivity.
  - intros total_investment ladder_years target_yield.
    rewrite !create_bond_ladder_cases.
    destruct (ladder_years =? 0)%Z; [reflexivity |].
    destruct (ladder_years <? 0)%Z; [reflexivity |].
    destruct (Qeq_bool total_investment 0); [reflexivity |].
    cbn [result_map]. f_equal. apply ladder_rows_without_year.
  - intros total_investment ladder_years target_yield Hc.
    rewrite !create_bond_ladder_cases.
    destruct (ladder_years =? 0)%Z; [reflexivity |].
    destruct (ladder_years <? 0)%Z; [reflexivity |].
    destruct (Qeq_bool total_investment 0); [reflexivity |].
    f_equal. apply ladder_rows_same_clock. exact Hc.
Qed.

Lemma C1_results_depend_on_inputs_and_clock_witness :
  same_clock (Z.to_nat 5) (fixed_clock 2024) new_year_after_five /\
  value (create_bond_ladder __init__ 100000 5 4.5 (fixed_clock 2024)) =
  value (create_bond_ladder __init__ 100000 5 4.5 new_year_after_five).
Proof.
  assert (Hc : same_clock (Z.to_nat 5) (fixed_clock 2024) new_year_after_five).
  { intros i Hi. do 5 (destruct i as [| i]; [reflexivity |]).
    simpl in Hi. lia. }
  split; [exact Hc |].
  apply (C1_results_depend_on_inputs_and_clock __init__ (fixed_clock 2024)
           new_year_after_five).
  exact Hc.
Defined.

(** ** C2: the tax as a function of total income *)

(** C2.  The tax liability returned by [calculate_tax_liability] is the
    function [tax_for] of the total income.  It is non-decreasing and
    continuous; at each of the three band edges the branch below and the
    branch above give the same tax; and an increment above an edge that
    stays within the next band raises the tax by the increment times that
    band's rate (20, 40 and 45 percent). *)
Theorem C2_tax_continuous_and_monotone :
  (forall income pension w,
     exists d, calculate_tax_liability __init__ income pension w = Ok (d, w) /\
               tax_liability d = tax_for __init__ (income + pension)) /\
  (forall x y, 0 <= x -> x <= y -> tax_for __init__ x <= tax_for __init__ y) /\
  (forall x eps, 0 <= x -> 0 < eps ->
     exists delta, 0 < delta /\
       forall y, 0 <= y -> Qabs (y - x) < delta ->
                 Qabs (tax_for __init__ y - tax_for __init__ x) < eps) /\
  (tax_allowance_band __init__ 12570 == tax_basic_band __init__ 12570 /\
   tax_basic_band __init__ 50270 == tax_higher_band __init__ 50270 /\
   tax_higher_band __init__ 125140 == tax_additional_band __init__ 125140) /\
  (forall d, 0 <= d -> 12570 + d <= 50270 ->
     tax_for __init__ (12570 + d) - tax_for __init__ 12570 == d * 0.20) /\
  (forall d, 0 <= d -> 50270 + d <= 125140 ->
     tax_for __init__ (50270 + d) - tax_for __init__ 50270 == d * 0.40) /\
  (forall d, 0 <= d ->
     tax_for __init__ (125140 + d) - tax_for __init__ 125140 == d * 0.45).
Proof.
  pose proof init_allowance_le_basic as H1.
  pose proof init_basic_le_higher as H2.
  refine (conj _ (conj _ (conj _ (conj (conj _ (conj _ _))
                                   (conj _ (conj _ _)))))).
  - intros income pension w. eexists. split.
    + apply calculate_tax_liability_run.
    + reflexivity.
  - intros x y _ Hxy. apply tax_for_monotone; assumption.
  - intros x eps _ Heps.
    destruct (tax_for_continuous __init__ H1 H2 x eps Heps) as [delta [Hd Hc]].
    exists delta. split; [exact Hd |]. intros y _ Hy. apply Hc. exact Hy.
  - apply (bands_meet_at_allowance __init__).
  - apply (bands_meet_at_basic __init__).
  - apply (bands_meet_at_higher __init__).
  - intros d Hd Hin. apply (increment_above_allowance __init__); assumption.
  - intros d Hd Hin. apply (increment_above_basic __init__); assumption.
  - intros d Hd. apply (increment_above_higher __init__); assumption.
Qed.

Lemma C2_tax_continuous_and_monotone_witness :
  (0 <= 40000 /\ 40000 <= 60000 /\
   tax_for __init__ 40000 <= tax_for __init__ 60000) /\
  (0 <= 1000 /\ 12570 + 1000 <= 50270 /\
   tax_for __init__ (12570 + 1000) - tax_for __init__ 12570 == 1000 * 0.20) /\
  (0 <= 1000 /\ 50270 + 1000 <= 125140 /\
   tax_for __init__ (50270 + 1000) - tax_for __init__ 50270 == 1000 * 0.40) /\
  (0 <= 1000 /\
   tax_for __init__ (125140 + 1000) - tax_for __init__ 125140 == 1000 * 0.45) /\
  (0 <= 50270 /\ 0 < 1 /\
   exists delta, 0 < delta /\
     forall y, 0 <= y -> Qabs (y - 50270) < delta ->
               Qabs (tax_for __init__ y - tax_for __init__ 50270) < 1).
Proof.
  destruct C2_tax_continuous_and_monotone
    as [_ [Hmono [Hcont [_ [Hbasic [Hhigher Hadd]]]]]].
  assert (P0 : 0 <= 40000) by discriminate.
  assert (P1 : 40000 <= 60000) by discriminate.
  assert (P2 : 0 <= 1000) by discriminate.
  assert (P3 : 12570 + 1000 <= 50270) by discriminate.
  assert (P4 : 50270 + 1000 <= 125140) by discriminate.
  assert (P5 : 0 <= 50270) by discriminate.
  assert (P6 : 0 < 1) by reflexivity.
  refine (conj (conj P0 (conj P1 _))
            (conj (conj P2 (conj P3 _))
               (conj (conj P2 (conj P4 _))
                  (conj (conj P2 _) (conj P5 (conj P6 _)))))).
  - apply (Hmono 40000 60000 P0 P1).
  - apply (Hbasic 1000 P2 P3).
  - apply (Hhigher 1000 P2 P4).
  - apply (Hadd 1000 P2).
  - apply (Hcont 50270 1 P5 P6).
Defined.

(** ** C3: the allocations add up *)

(** C3.  For a positive total investment and at least one year, the ladder
    is built, has one row per year, its [Allocation] column sums to the
    total investment and its [Allocation_Percentage] column sums to 100. *)
Theorem C3_allocations_sum_to_total (self : GiltLadderCalculator)
    (total_investment : Q) (ladder_years : Z) (target_yield : Q) (w : World) :
  0 < total_investment -> (1 <= ladder_years)%Z ->
  exists rows w',
    create_bond_ladder self total_investment ladder_years target_yield w =
      Ok (rows, w') /\
    length rows = Z.to_nat ladder_years /\
    Qsum (map Allocation rows) == total_investment /\
    Qsum (map Allocation_Percentage rows) == 100.
Proof.
  intros Ht Hn.
  assert (Hnz : ~ total_investment == 0) by lra.
  assert (Hy : ~ inject_Z ladder_years == 0).
  { rewrite inject_Z_zero. lia. }
  destruct (create_bond_ladder_ok total_investment ladder_years target_yield
              self w Hnz Hn) as [w' Hw'].
  exists (ladder_rows total_investment ladder_years target_yield w), w'.
  split; [exact Hw' |]. split; [apply ladder_rows_length |].
  unfold ladder_rows. rewrite !map_map. split.
  - rewrite (Qsum_constant (total_investment / inject_Z ladder_years))
      by (intros i; reflexivity).
    rewrite length_seq, Z2Nat.id by lia. field. exact Hy.
  - rewrite (Qsum_constant
               (total_investment / inject_Z ladder_years / total_investment
                * 100))
      by (intros i; reflexivity).
    rewrite length_seq, Z2Nat.id by lia. field. split; assumption.
Qed.

Lemma C3_allocations_sum_to_total_witness :
  0 < 100000 /\ (1 <= 3)%Z /\
  exists rows w',
    create_bond_ladder __init__ 100000 3 4.5 (fixed_clock 2024) =
      Ok (rows, w') /\
    length rows = Z.to_nat 3 /\
    Qsum (map Allocation rows) == 100000 /\
    Qsum (map Allocation_Percentage rows) == 100.
Proof.
  assert (P0 : 0 < 100000) by reflexivity.
  assert (P1 : (1 <= 3)%Z) by discriminate.
  refine (conj P0 (conj P1 _)).
  apply (C3_allocations_sum_to_total __init__ 100000 3 4.5 (fixed_clock 2024)
           P0 P1).
Defined.

(** ** C4: a total investment of zero *)

(** C4 does not hold of the code.  With a total investment of zero and at
    least one year, the first iteration of the loop divides
    [allocation_per_year] by [total_investment] and the builder raises
    [ZeroDivisionError]; no ladder is returned.  (The effective rate of
    [calculate_tax_liability] guards the same kind of division.) *)
Theorem C4_zero_investment_raises (self : GiltLadderCalculator)
    (total_investment : Q) (ladder_years : Z) (target_yield : Q) (w : World) :
  total_investment == 0 -> (1 <= ladder_years)%Z ->
  create_bond_ladder self total_investment ladder_years target_yield w =
  Raise ZeroDivisionError.
Proof.
  intros Hz Hn. apply create_bond_ladder_zero_total; assumption.
Qed.

Lemma C4_zero_investment_raises_witness :
  0 == 0 /\ (1 <= 5)%Z /\
  create_bond_ladder __init__ 0 5 4.5 (fixed_clock 2024) =
  Raise ZeroDivisionError.
Proof.
  assert (P0 : 0 == 0) by reflexivity.
  assert (P1 : (1 <= 5)%Z) by discriminate.
  refine (conj P0 (conj P1 _)).
  apply (C4_zero_investment_raises __init__ 0 5 4.5 (fixed_clock 2024) P0 P1).
Defined.

(** ** C5: inputs outside the domain *)

(** C5, as stated, fails.  No input is rejected before computation: a zero
    [years_to_maturity] and a zero ladder length surface as the
    [ZeroDivisionError] of the division itself, a negative income is taxed
    like any other (here: no tax, gross and net income of -1000), and a
    negative ladder length gives an empty ladder. *)
Lemma C5_no_input_is_rejected :
  value (calculate_yield_to_maturity __init__ 95 100 5 0 (fixed_clock 2024)) =
    Raise ZeroDivisionError /\
  value (create_bond_ladder __init__ 100000 0 4.5 (fixed_clock 2024)) =
    Raise ZeroDivisionError /\
  value (create_bond_ladder __init__ 100000 (-2) 4.5 (fixed_clock 2024)) =
    Ok [] /\
  exists d,
    value (calculate_tax_liability __init__ (-1000) 0 (fixed_clock 2024)) =
      Ok d /\
    gross_income d == -1000 /\ tax_liability d == 0 /\
    net_income d == -1000 /\ effective_rate d == 0.
Proof.
  repeat (split; [reflexivity |]).
  eexists. split; [reflexivity |]. repeat split.
Qed.

(** C5, amended.  The engine validates nothing and has no error of its
    own.  In the yield estimate a zero [years_to_maturity], or a zero
    average price ([face_value + price = 0]), raises [ZeroDivisionError] at
    the division; so does a ladder length of zero in the ladder builder,
    while a negative ladder length returns the empty ladder.  The tax
    computation accepts every pair of incomes: it returns a record for the
    total income, and for a negative total that record has no tax, an
    effective rate of 0 and a net income equal to the (negative) total. *)
Theorem C5_faults_propagate_and_nothing_is_rejected
    (self : GiltLadderCalculator) (w : World) :
  (forall price face_value coupon_rate years,
     years == 0 ->
     calculate_yield_to_maturity self price face_value coupon_rate years w =
     Raise ZeroDivisionError) /\
  (forall price face_value coupon_rate years,
     ~ years == 0 -> face_value + price == 0 ->
     calculate_yield_to_maturity self price face_value coupon_rate years w =
     Raise ZeroDivisionError) /\
  (forall total_investment target_yield,
     create_bond_ladder self total_investment 0 target_yield w =
     Raise ZeroDivisionError) /\
  (forall total_investment ladder_years target_yield,
     (ladder_years < 0)%Z ->
     create_bond_ladder self total_investment ladder_years target_yield w =
     Ok ([], w)) /\
  (forall income pension,
     exists d,
       calculate_tax_liability self income pension w = Ok (d, w) /\
       gross_income d = income + pension /\
       (income + pension < 0 -> 0 <= personal_allowance self ->
        tax_liability d = 0 /\ effective_rate d = 0 /\
        net_income d == income + pension)).
Proof.
  refine (conj _ (conj _ (conj _ (conj _ _)))).
  - intros. apply calculate_yield_to_maturity_zero_years. assumption.
  - intros. apply calculate_yield_to_maturity_zero_average; assumption.
  - intros. apply create_bond_ladder_no_years. reflexivity.
  - intros. apply create_bond_ladder_negative_years. assumption.
  - intros income pension. eexists. split.
    + apply calculate_tax_liability_run.
    + cbn [gross_income tax_liability effective_rate net_income].
      split; [reflexivity |]. intros Hneg Hpa.
      assert (Hg : Qgtb (income + pension) 0 = false).
      { apply Qgtb_false. lra. }
      rewrite Hg, tax_for_below_allowance by lra.
      repeat split. ring.
Qed.

Lemma C5_faults_propagate_and_nothing_is_rejected_witness :
  (0 == 0 /\
   calculate_yield_to_maturity __init__ 95 100 5 0 (fixed_clock 2024) =
   Raise ZeroDivisionError) /\
  (~ 3 == 0 /\ 100 + -100 == 0 /\
   calculate_yield_to_maturity __init__ (-100) 100 5 3 (fixed_clock 2024) =
   Raise ZeroDivisionError) /\
  ((-2 < 0)%Z /\
   create_bond_ladder __init__ 100000 (-2) 4.5 (fixed_clock 2024) =
   Ok ([], fixed_clock 2024)) /\
  (-1000 + 0 < 0 /\ 0 <= personal_allowance __init__ /\
   exists d,
     calculate_tax_liability __init__ (-1000) 0 (fixed_clock 2024) =
       Ok (d, fixed_clock 2024) /\
     tax_liability d = 0 /\ effective_rate d = 0 /\ net_income d == -1000 + 0).
Proof.
  destruct (C5_faults_propagate_and_nothing_is_rejected __init__
              (fixed_clock 2024)) as [Hy [Ha [_ [Hn Ht]]]].
  assert (P0 : 0 == 0) by reflexivity.
  assert (P1 : ~ 3 == 0) by discriminate.
  assert (P2 : 100 + -100 == 0) by reflexivity.
  assert (P3 : (-2 < 0)%Z) by reflexivity.
  assert (P4 : -1000 + 0 < 0) by reflexivity.
  assert (P5 : 0 <= personal_allowance __init__) by discriminate.
  refine (conj (conj P0 _) (conj (conj P1 (conj P2 _))
            (conj (conj P3 _) (conj P4 (conj P5 _))))).
  - apply (Hy 95 100 5 0 P0).
  - apply (Ha (-100) 100 5 3 P1 P2).
  - apply (Hn 100000 (-2)%Z 4.5 P3).
  - destruct (Ht (-1000) 0) as [d [Hd [_ Hneg]]].
    exists d. split; [exact Hd |]. apply (Hneg P4 P5).
Defined.

(** ** C6: the target yield of each row *)

(** C6.  For a ladder of at least one year, whenever the builder returns
    (which it does for every non-zero total investment), the row of year
    index [k], for [1 <= k <= ladder_years], has target yield
    [target_yield + (k - 1) * slope], the slope being the 0.1 of the yield
    curve. *)
Theorem C6_target_yield_of_row (self : GiltLadderCalculator)
    (total_investment : Q) (ladder_years : Z) (target_yield : Q) (w : World) :
  (1 <= ladder_years)%Z ->
  (~ total_investment == 0 ->
   exists rows w',
     create_bond_ladder self total_investment ladder_years target_yield w =
     Ok (rows, w')) /\
  (forall rows w',
     create_bond_ladder self total_investment ladder_years target_yield w =
     Ok (rows, w') ->
     forall k, (1 <= k <= ladder_years)%Z ->
       exists row,
         nth_error rows (Z.to_nat (k - 1)) = Some row /\
         Target_Yield row ==
         target_yield + inject_Z (k - 1) * yield_curve_slope) /\
  yield_curve_slope == 0.1.
Proof.
  intros Hn. refine (conj _ (conj _ _)).
  - intros Hnz.
    destruct (create_bond_ladder_ok total_investment ladder_years target_yield
                self w Hnz Hn) as [w' Hw'].
    eauto.
  - intros rows w' Hrun k Hk.
    pose proof (create_bond_ladder_cases self total_investment ladder_years
                  target_yield w) as Hc.
    rewrite Hrun in Hc. cbn [value] in Hc.
    destruct (Z.eqb_spec ladder_years 0) as [H0 | _]; [lia |].
    destruct (Z.ltb_spec ladder_years 0) as [Hneg | _]; [lia |].
    destruct (Qeq_bool total_investment 0); [discriminate Hc |].
    injection Hc as ->.
    eexists. split.
    + apply ladder_rows_nth. lia.
    + cbn [ladder_row Target_Yield].
      replace (1 + Z.of_nat (Z.to_nat (k - 1)) - 1)%Z with (k - 1)%Z by lia.
      reflexivity.
  - reflexivity.
Qed.

Lemma C6_target_yield_of_row_witness :
  (1 <= 5)%Z /\ ~ 100000 == 0 /\ (1 <= 3 <= 5)%Z /\
  exists rows w' row,
    create_bond_ladder __init__ 100000 5 4.5 (fixed_clock 2024) =
      Ok (rows, w') /\
    nth_error rows (Z.to_nat (3 - 1)) = Some row /\
    Target_Yield row == 4.5 + inject_Z (3 - 1) * yield_curve_slope.
Proof.
  assert (P0 : (1 <= 5)%Z) by discriminate.
  assert (P1 : ~ 100000 == 0) by discriminate.
  assert (P2 : (1 <= 3 <= 5)%Z) by (split; discriminate).
  refine (conj P0 (conj P1 (conj P2 _))).
  destruct (C6_target_yield_of_row __init__ 100000 5 4.5 (fixed_clock 2024) P0)
    as [Hruns [Hrows _]].
  destruct (Hruns P1) as [rows [w' Hrun]].
  destruct (Hrows rows w' Hrun 3%Z P2) as [row Hrow].
  exists rows, w', row. split; [exact Hrun | exact Hrow].
Defined.

(** ** C7: the invariants of the tax record *)

(** C7.  For non-negative incomes the returned record has a non-negative
    tax liability, a net income equal to the gross income less the tax, and
    an effective rate equal to tax over gross income times 100, which is 0
    when the gross income is 0. *)
Theorem C7_tax_record_invariants (income pension : Q) (w : World) :
  0 <= income -> 0 <= pension ->
  exists d,
    calculate_tax_liability __init__ income pension w = Ok (d, w) /\
    gross_income d == income + pension /\
    0 <= tax_liability d /\
    net_income d == gross_income d - tax_liability d /\
    (0 < gross_income d ->
     effective_rate d == tax_liability d / gross_income d * 100) /\
    (gross_income d == 0 -> effective_rate d == 0).
Proof.
  intros Hi Hp. eexists. split; [apply calculate_tax_liability_run |].
  cbn [gross_income tax_liability net_income effective_rate].
  refine (conj _ (conj _ (conj _ (conj _ _)))).
  - reflexivity.
  - apply (tax_for_nonneg __init__);
      first [exact init_allowance_le_basic | exact init_basic_le_higher].
  - reflexivity.
  - intros Hpos. apply Qgtb_true in Hpos. rewrite Hpos. reflexivity.
  - intros Hzero.
    assert (Hg : Qgtb (income + pension) 0 = false).
    { apply Qgtb_false. lra. }
    rewrite Hg. reflexivity.
Qed.

Lemma C7_tax_record_invariants_witness :
  0 <= 27000 /\ 0 <= 13000 /\
  exists d,
    calculate_tax_liability __init__ 27000 13000 (fixed_clock 2024) =
      Ok (d, fixed_clock 2024) /\
    gross_income d == 27000 + 13000 /\
    0 <= tax_liability d /\
    net_income d == gross_income d - tax_liability d /\
    (0 < gross_income d ->
     effective_rate d == tax_liability d / gross_income d * 100) /\
    (gross_income d == 0 -> effective_rate d == 0).
Proof.
  assert (P0 : 0 <= 27000) by discriminate.
  assert (P1 : 0 <= 13000) by discriminate.
  refine (conj P0 (conj P1 _)).
  apply (C7_tax_record_invariants 27000 13000 (fixed_clock 2024) P0 P1).
Defined.

(** ** C8: a bond priced at par *)

(** C8.  With a positive face value, a non-negative coupon rate, a positive
    time to maturity and a price equal to the face value, the yield
    estimate returns the coupon rate. *)
Theorem C8_yield_at_par_is_coupon (self : GiltLadderCalculator)
    (face_value coupon_rate years : Q) (w : World) :
  0 < face_value -> 0 <= coupon_rate -> 0 < years ->
  exists ytm,
    calculate_yield_to_maturity self face_value face_value coupon_rate
      years w = Ok (ytm, w) /\
    ytm == coupon_rate.
Proof.
  intros Hf Hc Hy. eexists. split.
  - apply calculate_yield_to_maturity_ok; lra.
  - unfold ytm_formula. field. split; lra.
Qed.

Lemma C8_yield_at_par_is_coupon_witness :
  0 < 100 /\ 0 <= 4.25 /\ 0 < 7 /\
  exists ytm,
    calculate_yield_to_maturity __init__ 100 100 4.25 7 (fixed_clock 2024) =
      Ok (ytm, fixed_clock 2024) /\
    ytm == 4.25.
Proof.
  assert (P0 : 0 < 100) by reflexivity.
  assert (P1 : 0 <= 4.25) by discriminate.
  assert (P2 : 0 < 7) by reflexivity.
  refine (conj P0 (conj P1 (conj P2 _))).
  apply (C8_yield_at_par_is_coupon __init__ 100 4.25 7 (fixed_clock 2024)
           P0 P1 P2).
Defined.

(** ** C9: the worked tax example *)

(** C9.  Incomes of 27,000 and 13,000 under the 2024/25 thresholds give a
    tax liability of 5,486, a net income of 34,514 and an effective rate of
    13.715 percent, which is 13.7 to one decimal place. *)
Theorem C9_tax_example (w : World) :
  exists d,
    calculate_tax_liability __init__ 27000 13000 w = Ok (d, w) /\
    gross_income d == 40000 /\
    tax_liability d == 5486 /\
    net_income d == 34514 /\
    effective_rate d == 13.715 /\
    Qabs (effective_rate d - 13.7) < 0.05.
Proof.
  eexists. split; [apply calculate_tax_liability_run |].
  cbn [gross_income tax_liability net_income effective_rate].
  repeat split.
Qed.

(** ** C10: the yield falls as the price rises *)

(** The difference of the yields at two prices, in closed form. *)
Lemma ytm_formula_difference (face_value coupon_rate years p1 p2 : Q) :
  0 < face_value -> 0 < years -> 0 < p1 -> 0 < p2 ->
  ytm_formula p1 face_value coupon_rate years -
  ytm_formula p2 face_value coupon_rate years ==
  200 * (p2 - p1) *
  (face_value * coupon_rate * 0.01 + 2 * face_value * / years) *
  / ((face_value + p1) * (face_value + p2)).
Proof.
  intros Hf Hy H1 H2. unfold ytm_formula. field.
  repeat split; lra.
Qed.

(** C10.  With a positive face value, a non-negative coupon rate and a
    positive time to maturity, the yield estimate is strictly decreasing in
    the price over positive prices. *)
Theorem C10_yield_decreases_with_price (self : GiltLadderCalculator)
    (face_value coupon_rate years price1 price2 : Q) (w : World) :
  0 < face_value -> 0 <= coupon_rate -> 0 < years ->
  0 < price1 -> price1 < price2 ->
  exists ytm1 ytm2,
    calculate_yield_to_maturity self price1 face_value coupon_rate years w =
      Ok (ytm1, w) /\
    calculate_yield_to_maturity self price2 face_value coupon_rate years w =
      Ok (ytm2, w) /\
    ytm2 < ytm1.
Proof.
  intros Hf Hc Hy H1 H12.
  assert (H2 : 0 < price2) by lra.
  exists (ytm_formula price1 face_value coupon_rate years),
         (ytm_formula price2 face_value coupon_rate years).
  split; [apply calculate_yield_to_maturity_ok; lra |].
  split; [apply calculate_yield_to_maturity_ok; lra |].
  pose proof (ytm_formula_difference face_value coupon_rate years price1
                price2 Hf Hy H1 H2) as Hd.
  assert (Hpos :
    0 < 200 * (price2 - price1) *
        (face_value * coupon_rate * 0.01 + 2 * face_value * / years) *
        / ((face_value + price1) * (face_value + price2))).
  { apply Qmult_lt_0_compat.
    - apply Qmult_lt_0_compat.
      + lra.
      + pose proof (Qinv_lt_0_compat years Hy) as Hiy.
        pose proof (Qmult_le_0_compat _ _ (Qlt_le_weak _ _ Hf) Hc) as Hfc.
        pose proof (Qmult_lt_0_compat _ _ Hf Hiy) as Hfy.
        lra.
    - apply Qinv_lt_0_compat. apply Qmult_lt_0_compat; lra. }
  lra.
Qed.

Lemma C10_yield_decreases_with_price_witness :
  0 < 100 /\ 0 <= 4.25 /\ 0 < 7 /\ 0 < 95 /\ 95 < 105 /\
  exists ytm1 ytm2,
    calculate_yield_to_maturity __init__ 95 100 4.25 7 (fixed_clock 2024) =
      Ok (ytm1, fixed_clock 2024) /\
    calculate_yield_to_maturity __init__ 105 100 4.25 7 (fixed_clock 2024) =
      Ok (ytm2, fixed_clock 2024) /\
    ytm2 < ytm1.
Proof.
  assert (P0 : 0 < 100) by reflexivity.
  assert (P1 : 0 <= 4.25) by discriminate.
  assert (P2 : 0 < 7) by reflexivity.
  assert (P3 : 0 < 95) by reflexivity.
  assert (P4 : 95 < 105) by reflexivity.
  refine (conj P0 (conj P1 (conj P2 (conj P3 (conj P4 _))))).
  apply (C10_yield_decreases_with_price __init__ 100 4.25 7 95 105
           (fixed_clock 2024) P0 P1 P2 P3 P4).
Defined.

(** * Further properties of the calculator *)

(** ** The rows of a ladder *)

Lemma Qsum_app (xs ys : list Q) : Qsum (xs ++ ys) == Qsum xs + Qsum ys.
Proof.
  unfold Qsum. induction xs as [| x xs IH]; cbn [app fold_right].
  - ring.
  - rewrite IH. ring.
Qed.

(** A returned ladder is the closed form, and nothing is returned for a
    ladder of no years or, with years to fill, for no money. *)
Lemma create_bond_ladder_returns self total_investment ladder_years
    target_yield w rows w' :
  create_bond_ladder self total_investment ladder_years target_yield w =
    Ok (rows, w') ->
  rows = ladder_rows total_investment ladder_years target_yield w /\
  ladder_years <> 0%Z /\
  ((1 <= ladder_years)%Z -> ~ total_investment == 0).
Proof.
  intros Hrun.
  pose proof (create_bond_ladder_cases self total_investment ladder_years
                target_yield w) as Hc.
  rewrite Hrun in Hc. cbn [value] in Hc.
  destruct (Z.eqb_spec ladder_years 0) as [H0 | H0]; [discriminate Hc |].
  destruct (Z.ltb_spec ladder_years 0) as [Hneg | Hpos].
  - injection Hc as ->. unfold ladder_rows.
    replace (Z.to_nat ladder_years) with 0%nat by lia.
    split; [reflexivity |]. split; [exact H0 | lia].
  - destruct (Qeq_bool total_investment 0) eqn:Et; [discriminate Hc |].
    injection Hc as ->. split; [reflexivity |]. split; [exact H0 |].
    intros _ H. apply Qeq_bool_iff in H. congruence.
Qed.

Lemma in_ladder_rows total_investment ladder_years target_yield w r :
  In r (ladder_rows total_investment ladder_years target_yield w) ->
  exists i, (i < Z.to_nat ladder_years)%nat /\
    r = ladder_row total_investment ladder_years target_yield
          (upcoming_years w i) (1 + Z.of_nat i).
Proof.
  unfold ladder_rows. rewrite in_map_iff. intros [i [Hr Hi]].
  apply in_seq in Hi. exists i. split; [lia | symmetry; exact Hr].
Qed.

Lemma ladder_rows_nth_year total_investment ladder_years target_yield w
    (i : nat) (r : LadderRow) :
  nth_error (ladder_rows total_investment ladder_years target_yield w) i =
    Some r ->
  Maturity_Year r = (upcoming_years w i + (1 + Z.of_nat i))%Z.
Proof.
  intros Hr.
  assert (Hi : (i < Z.to_nat ladder_years)%nat).
  { rewrite <- (ladder_rows_length total_investment ladder_years
                  target_yield w).
    apply nth_error_Some. congruence. }
  rewrite (ladder_rows_nth _ _ _ _ _ Hi) in Hr. injection Hr as <-.
  reflexivity.
Qed.

(** X1.  Every row of a returned ladder holds the same allocation, the total
    over the number of years; its income is its allocation times its target
    yield over 100; its share is 100 over the number of years. *)
Theorem ladder_row_invariants (self : GiltLadderCalculator)
    (total_investment : Q) (ladder_years : Z) (target_yield : Q)
    (w w' : World) (rows : DataFrame) :
  create_bond_ladder self total_investment ladder_years target_yield w =
    Ok (rows, w') ->
  Forall (fun r =>
            Allocation r == total_investment / inject_Z ladder_years /\
            Annual_Income r == Allocation r * Target_Yield r / 100 /\
            Allocation_Percentage r == 100 / inject_Z ladder_years)
         rows.
Proof.
  intros Hrun.
  destruct (create_bond_ladder_returns _ _ _ _ _ _ _ Hrun) as [-> [H0 Hnz]].
  apply Forall_forall. intros r Hr.
  apply in_ladder_rows in Hr. destruct Hr as [i [Hi ->]].
  assert (Hn : (1 <= ladder_years)%Z) by lia.
  specialize (Hnz Hn).
  assert (Hy : ~ inject_Z ladder_years == 0).
  { rewrite inject_Z_zero. exact H0. }
  cbn [ladder_row Allocation Annual_Income Target_Yield Allocation_Percentage].
  split; [reflexivity |]. split.
  - field. exact Hy.
  - field. split; assumption.
Qed.

Lemma ladder_row_invariants_witness :
  exists rows w',
    create_bond_ladder __init__ 100000 5 4.5 (fixed_clock 2024) =
      Ok (rows, w') /\
    Forall (fun r =>
              Allocation r == 100000 / inject_Z 5 /\
              Annual_Income r == Allocation r * Target_Yield r / 100 /\
              Allocation_Percentage r == 100 / inject_Z 5)
           rows.
Proof.
  destruct (create_bond_ladder_ok 100000 5 4.5 __init__ (fixed_clock 2024))
    as [w' Hrun]; [discriminate | discriminate |].
  exists (ladder_rows 100000 5 4.5 (fixed_clock 2024)), w'.
  split; [exact Hrun |].
  apply (ladder_row_invariants __init__ 100000 5 4.5 (fixed_clock 2024)
           _ _ Hrun).
Defined.

(** X2.  The years between the maturities of two rows that follow each other:
    one, plus as many years as the clock moved between the two readings.
    The first row matures the year after the first reading. *)
Theorem maturity_years_follow_the_clock (self : GiltLadderCalculator)
    (total_investment : Q) (ladder_years : Z) (target_yield : Q)
    (w w' : World) (rows : DataFrame) :
  create_bond_ladder self total_investment ladder_years target_yield w =
    Ok (rows, w') ->
  (forall r, nth_error rows 0 = Some r ->
             Maturity_Year r = (upcoming_years w 0 + 1)%Z) /\
  (forall i r r',
     nth_error rows i = Some r -> nth_error rows (S i) = Some r' ->
     (Maturity_Year r' - Maturity_Year r =
      1 + (upcoming_years w (S i) - upcoming_years w i))%Z).
Proof.
  intros Hrun.
  destruct (create_bond_ladder_returns _ _ _ _ _ _ _ Hrun) as [-> _].
  split.
  - intros r Hr. rewrite (ladder_rows_nth_year _ _ _ _ _ _ Hr). reflexivity.
  - intros i r r' Hr Hr'.
    rewrite (ladder_rows_nth_year _ _ _ _ _ _ Hr),
      (ladder_rows_nth_year _ _ _ _ _ _ Hr').
    lia.
Qed.

Lemma maturity_years_follow_the_clock_witness :
  exists rows w' r r',
    create_bond_ladder __init__ 100000 5 4.5 new_year_after_five =
      Ok (rows, w') /\
    nth_error rows 1 = Some r /\ nth_error rows 2 = Some r' /\
    (Maturity_Year r' - Maturity_Year r =
     1 + (upcoming_years new_year_after_five 2 -
          upcoming_years new_year_after_five 1))%Z.
Proof.
  destruct (create_bond_ladder_ok 100000 5 4.5 __init__ new_year_after_five)
    as [w' Hrun]; [discriminate | discriminate |].
  exists (ladder_rows 100000 5 4.5 new_year_after_five), w'.
  eexists. eexists.
  split; [exact Hrun |]. split; [reflexivity |]. split; [reflexivity |].
  apply (proj2 (maturity_years_follow_the_clock __init__ 100000 5 4.5
                  new_year_after_five _ _ Hrun) 1%nat);
    reflexivity.
Defined.

Lemma clock_never_goes_back_le (w : World) (i j : nat) :
  clock_never_goes_back w -> (i <= j)%nat ->
  (upcoming_years w i <= upcoming_years w j)%Z.
Proof.
  intros Hc Hij. induction Hij as [| j Hij IH].
  - lia.
  - specialize (Hc j). lia.
Qed.

(** X3.  With a clock that never goes back, the rows of a returned ladder are in
    strictly ascending order of maturity year. *)
Theorem maturity_years_ascend (self : GiltLadderCalculator)
    (total_investment : Q) (ladder_years : Z) (target_yield : Q)
    (w w' : World) (rows : DataFrame) (i j : nat) (r r' : LadderRow) :
  clock_never_goes_back w ->
  create_bond_ladder self total_investment ladder_years target_yield w =
    Ok (rows, w') ->
  (i < j)%nat -> nth_error rows i = Some r -> nth_error rows j = Some r' ->
  (Maturity_Year r < Maturity_Year r')%Z.
Proof.
  intros Hc Hrun Hij Hr Hr'.
  destruct (create_bond_ladder_returns _ _ _ _ _ _ _ Hrun) as [-> _].
  rewrite (ladder_rows_nth_year _ _ _ _ _ _ Hr),
    (ladder_rows_nth_year _ _ _ _ _ _ Hr').
  assert (Hle : (upcoming_years w i <= upcoming_years w j)%Z).
  { apply clock_never_goes_back_le; [exact Hc | lia]. }
  lia.
Qed.

Lemma maturity_years_ascend_witness :
  clock_never_goes_back new_year_after_five /\
  exists rows w' r r',
    create_bond_ladder __init__ 100000 7 4.5 new_year_after_five =
      Ok (rows, w') /\
    (2 < 6)%nat /\
    nth_error rows 2 = Some r /\ nth_error rows 6 = Some r' /\
    (Maturity_Year r < Maturity_Year r')%Z.
Proof.
  assert (Hc : clock_never_goes_back new_year_after_five).
  { intros i. do 6 (destruct i as [| i]; [discriminate |]). discriminate. }
  split; [exact Hc |].
  assert (Hlt : (2 < 6)%nat) by (repeat constructor).
  destruct (create_bond_ladder_ok 100000 7 4.5 __init__ new_year_after_five)
    as [w' Hrun]; [discriminate | discriminate |].
  exists (ladder_rows 100000 7 4.5 new_year_after_five), w'.
  eexists. eexists.
  split; [exact Hrun |]. split; [exact Hlt |].
  split; [reflexivity |]. split; [reflexivity |].
  apply (maturity_years_ascend __init__ 100000 7 4.5 new_year_after_five
           _ _ 2 6 _ _ Hc Hrun Hlt);
    reflexivity.
Defined.

(** The incomes of the rows [0] to [m - 1] add up like an arithmetic
    series. *)
Lemma ladder_income_sum total_investment ladder_years target_yield w
    (m : nat) :
  Qsum (map (fun i => Annual_Income
                        (ladder_row total_investment ladder_years target_yield
                           (upcoming_years w i) (1 + Z.of_nat i)))
            (seq 0 m)) ==
  total_investment / inject_Z ladder_years *
  (inject_Z (Z.of_nat m) * target_yield +
   yield_curve_slope * inject_Z (Z.of_nat m) * (inject_Z (Z.of_nat m) - 1) / 2)
  / 100.
Proof.
  induction m as [| m IH].
  - cbn [seq map Z.of_nat]. unfold Qsum. cbn [fold_right].
    change (inject_Z 0) with 0. unfold Qdiv. ring.
  - rewrite seq_S, map_app, Qsum_app, IH. cbn [map Nat.add].
    cbn [ladder_row Annual_Income]. unfold Qsum. cbn [fold_right].
    replace (1 + Z.of_nat m - 1)%Z with (Z.of_nat m) by lia.
    rewrite Nat2Z.inj_succ. unfold Z.succ. rewrite inject_Z_plus.
    change (inject_Z 1) with 1.
    generalize (total_investment / inject_Z ladder_years). intros c. field.
Qed.

Lemma ladder_income_sum_of_run self total_investment ladder_years target_yield
    w w' rows :
  (1 <= ladder_years)%Z ->
  create_bond_ladder self total_investment ladder_years target_yield w =
    Ok (rows, w') ->
  Qsum (map Annual_Income rows) ==
  total_investment *
  (target_yield + yield_curve_slope * (inject_Z ladder_years - 1) / 2) / 100.
Proof.
  intros Hn Hrun.
  destruct (create_bond_ladder_returns _ _ _ _ _ _ _ Hrun) as [-> [H0 _]].
  unfold ladder_rows. rewrite map_map, ladder_income_sum.
  rewrite Z2Nat.id by lia. field. rewrite inject_Z_zero. exact H0.
Qed.

(** X4.  The income of a whole ladder of at least one year: the total
    investment at the average of the target yields, which is the first
    target yield plus half the slope for each further year. *)
Theorem ladder_income_is_total_at_average_yield (self : GiltLadderCalculator)
    (total_investment : Q) (ladder_years : Z) (target_yield : Q)
    (w w' : World) (rows : DataFrame) :
  (1 <= ladder_years)%Z ->
  create_bond_ladder self total_investment ladder_years target_yield w =
    Ok (rows, w') ->
  Qsum (map Annual_Income rows) ==
  total_investment *
  (target_yield + yield_curve_slope * (inject_Z ladder_years - 1) / 2) / 100.
Proof.
  intros Hn Hrun. apply (ladder_income_sum_of_run self _ _ _ w w'); assumption.
Qed.

Lemma ladder_income_is_total_at_average_yield_witness :
  (1 <= 5)%Z /\
  exists rows w',
    create_bond_ladder __init__ 100000 5 4.5 (fixed_clock 2024) =
      Ok (rows, w') /\
    Qsum (map Annual_Income rows) ==
    100000 * (4.5 + yield_curve_slope * (inject_Z 5 - 1) / 2) / 100.
Proof.
  assert (P0 : (1 <= 5)%Z) by discriminate.
  split; [exact P0 |].
  destruct (create_bond_ladder_ok 100000 5 4.5 __init__ (fixed_clock 2024))
    as [w' Hrun]; [discriminate | discriminate |].
  exists (ladder_rows 100000 5 4.5 (fixed_clock 2024)), w'.
  split; [exact Hrun |].
  apply (ladder_income_is_total_at_average_yield __init__ 100000 5 4.5
           (fixed_clock 2024) _ _ P0 Hrun).
Defined.

(** ** More on the tax *)

Lemma init_allowance_nonneg : 0 <= personal_allowance __init__.
Proof. discriminate. Qed.

Lemma init_higher_positive : 0 < higher_rate_threshold __init__.
Proof. reflexivity. Qed.

(** Of two positive incomes the larger one pays at least the same share
    in tax. *)
Lemma tax_for_star_shaped (self : GiltLadderCalculator) (x y : Q) :
  0 <= personal_allowance self ->
  personal_allowance self <= basic_rate_threshold self ->
  basic_rate_threshold self <= higher_rate_threshold self ->
  0 < x -> x <= y ->
  tax_for self x * y <= tax_for self y * x.
Proof.
  intros H0 H1 H2 Hx Hxy.
  unfold tax_for, tax_allowance_band, tax_basic_band, tax_higher_band,
    tax_additional_band.
  case_le x (personal_allowance self);
    case_le x (basic_rate_threshold self);
    case_le x (higher_rate_threshold self);
    case_le y (personal_allowance self);
    case_le y (basic_rate_threshold self);
    case_le y (higher_rate_threshold self); try lra; nra.
Qed.

(** The tax stays under 45 percent of a positive income. *)
Lemma tax_for_below_top_rate (self : GiltLadderCalculator) (x : Q) :
  0 <= personal_allowance self ->
  personal_allowance self <= basic_rate_threshold self ->
  basic_rate_threshold self <= higher_rate_threshold self ->
  0 < higher_rate_threshold self ->
  0 < x -> tax_for self x < 0.45 * x.
Proof.
  intros H0 H1 H2 H3 Hx.
  unfold tax_for, tax_allowance_band, tax_basic_band, tax_higher_band,
    tax_additional_band.
  case_le x (personal_allowance self);
    case_le x (basic_rate_threshold self);
    case_le x (higher_rate_threshold self); lra.
Qed.

(** X5.  A total income within the personal allowance (negative totals
    included) pays no tax: the liability and the effective rate are 0 and
    the net income is the gross income. *)
Theorem no_tax_within_allowance (income pension : Q) (w : World) :
  income + pension <= 12570 ->
  exists d,
    calculate_tax_liability __init__ income pension w = Ok (d, w) /\
    tax_liability d == 0 /\ effective_rate d == 0 /\
    net_income d == gross_income d.
Proof.
  intros Hle. eexists. split; [apply calculate_tax_liability_run |].
  cbn [gross_income tax_liability net_income effective_rate].
  rewrite (tax_for_below_allowance __init__ _ Hle).
  refine (conj _ (conj _ _)).
  - reflexivity.
  - destruct (Qgtb (income + pension) 0) eqn:Eg; [| reflexivity].
    apply Qgtb_true in Eg. field. lra.
  - ring.
Qed.

Lemma no_tax_within_allowance_witness :
  9000 + 3570 <= 12570 /\
  exists d,
    calculate_tax_liability __init__ 9000 3570 (fixed_clock 2024) =
      Ok (d, fixed_clock 2024) /\
    tax_liability d == 0 /\ effective_rate d == 0 /\
    net_income d == gross_income d.
Proof.
  assert (P0 : 9000 + 3570 <= 12570) by discriminate.
  split; [exact P0 |].
  apply (no_tax_within_allowance 9000 3570 (fixed_clock 2024) P0).
Defined.

(** X6.  On a positive total income the effective rate lies in [0, 45) and more
    than 55 percent of the income is left after tax. *)
Theorem effective_rate_below_top_rate (income pension : Q) (w : World) :
  0 < income + pension ->
  exists d,
    calculate_tax_liability __init__ income pension w = Ok (d, w) /\
    0 <= effective_rate d /\ effective_rate d < 45 /\
    0.55 * gross_income d < net_income d /\
    net_income d <= gross_income d.
Proof.
  intros Hpos. eexists. split; [apply calculate_tax_liability_run |].
  cbn [gross_income tax_liability net_income effective_rate].
  assert (Hge : 0 <= tax_for __init__ (income + pension)).
  { apply (tax_for_nonneg __init__);
      first [exact init_allowance_le_basic | exact init_basic_le_higher]. }
  pose proof (tax_for_below_top_rate __init__ (income + pension)
                init_allowance_nonneg init_allowance_le_basic
                init_basic_le_higher init_higher_positive Hpos) as Hlt.
  assert (Hg : Qgtb (income + pension) 0 = true) by (apply Qgtb_true; exact Hpos).
  rewrite Hg.
  assert (Hq0 : 0 <= tax_for __init__ (income + pension) / (income + pension)).
  { apply Qle_shift_div_l; [exact Hpos | lra]. }
  assert (Hq1 : tax_for __init__ (income + pension) / (income + pension)
                < 0.45).
  { apply Qlt_shift_div_r; [exact Hpos | exact Hlt]. }
  repeat split; lra.
Qed.

Lemma effective_rate_below_top_rate_witness :
  0 < 1000000 + 0 /\
  exists d,
    calculate_tax_liability __init__ 1000000 0 (fixed_clock 2024) =
      Ok (d, fixed_clock 2024) /\
    0 <= effective_rate d /\ effective_rate d < 45 /\
    0.55 * gross_income d < net_income d /\
    net_income d <= gross_income d.
Proof.
  assert (P0 : 0 < 1000000 + 0) by reflexivity.
  split; [exact P0 |].
  apply (effective_rate_below_top_rate 1000000 0 (fixed_clock 2024) P0).
Defined.

(** X7.  A larger total income leaves a larger net income: of every extra
    pound at least 55 pence are kept. *)
Theorem net_income_grows_with_income (income1 pension1 income2 pension2 : Q)
    (w : World) :
  income1 + pension1 < income2 + pension2 ->
  exists d1 d2,
    calculate_tax_liability __init__ income1 pension1 w = Ok (d1, w) /\
    calculate_tax_liability __init__ income2 pension2 w = Ok (d2, w) /\
    net_income d1 < net_income d2 /\
    0.55 * (gross_income d2 - gross_income d1) <=
    net_income d2 - net_income d1.
Proof.
  intros Hlt. eexists. eexists.
  split; [apply calculate_tax_liability_run |].
  split; [apply calculate_tax_liability_run |].
  cbn [gross_income net_income].
  destruct (tax_for_slope __init__ init_allowance_le_basic init_basic_le_higher
              (income1 + pension1) (income2 + pension2)) as [H0 H1]; [lra |].
  split; lra.
Qed.

Lemma net_income_grows_with_income_witness :
  50000 + 0 < 50000 + 1000 /\
  exists d1 d2,
    calculate_tax_liability __init__ 50000 0 (fixed_clock 2024) =
      Ok (d1, fixed_clock 2024) /\
    calculate_tax_liability __init__ 50000 1000 (fixed_clock 2024) =
      Ok (d2, fixed_clock 2024) /\
    net_income d1 < net_income d2 /\
    0.55 * (gross_income d2 - gross_income d1) <=
    net_income d2 - net_income d1.
Proof.
  assert (P0 : 50000 + 0 < 50000 + 1000) by reflexivity.
  split; [exact P0 |].
  apply (net_income_grows_with_income 50000 0 50000 1000 (fixed_clock 2024)
           P0).
Defined.

(** X8.  The tax is progressive: of two positive total incomes the larger one
    has at least the same effective rate. *)
Theorem effective_rate_is_progressive (income1 pension1 income2 pension2 : Q)
    (w : World) :
  0 < income1 + pension1 -> income1 + pension1 <= income2 + pension2 ->
  exists d1 d2,
    calculate_tax_liability __init__ income1 pension1 w = Ok (d1, w) /\
    calculate_tax_liability __init__ income2 pension2 w = Ok (d2, w) /\
    effective_rate d1 <= effective_rate d2.
Proof.
  intros Hpos Hle. eexists. eexists.
  split; [apply calculate_tax_liability_run |].
  split; [apply calculate_tax_liability_run |].
  cbn [effective_rate].
  assert (Hpos2 : 0 < income2 + pension2) by lra.
  assert (Hg1 : Qgtb (income1 + pension1) 0 = true)
    by (apply Qgtb_true; exact Hpos).
  assert (Hg2 : Qgtb (income2 + pension2) 0 = true)
    by (apply Qgtb_true; exact Hpos2).
  rewrite Hg1, Hg2.
  pose proof (tax_for_star_shaped __init__ _ _ init_allowance_nonneg
                init_allowance_le_basic init_basic_le_higher Hpos Hle) as Hs.
  assert (Hq : tax_for __init__ (income1 + pension1) / (income1 + pension1) <=
               tax_for __init__ (income2 + pension2) / (income2 + pension2)).
  { apply Qle_shift_div_l; [exact Hpos2 |].
    setoid_replace (tax_for __init__ (income1 + pension1) /
                    (income1 + pension1) * (income2 + pension2))
      with (tax_for __init__ (income1 + pension1) * (income2 + pension2) /
            (income1 + pension1)) by (field; lra).
    apply Qle_shift_div_r; [exact Hpos | exact Hs]. }
  lra.
Qed.

Lemma effective_rate_is_progressive_witness :
  0 < 30000 + 0 /\ 30000 + 0 <= 90000 + 0 /\
  exists d1 d2,
    calculate_tax_liability __init__ 30000 0 (fixed_clock 2024) =
      Ok (d1, fixed_clock 2024) /\
    calculate_tax_liability __init__ 90000 0 (fixed_clock 2024) =
      Ok (d2, fixed_clock 2024) /\
    effective_rate d1 <= effective_rate d2.
Proof.
  assert (P0 : 0 < 30000 + 0) by reflexivity.
  assert (P1 : 30000 + 0 <= 90000 + 0) by discriminate.
  refine (conj P0 (conj P1 _)).
  apply (effective_rate_is_progressive 30000 0 90000 0 (fixed_clock 2024)
           P0 P1).
Defined.

(** ** More on the yield to maturity *)

(** The yield less the coupon rate, in closed form. *)
Lemma ytm_formula_less_coupon (price face_value coupon_rate years : Q) :
  ~ years == 0 -> ~ face_value + price == 0 ->
  ytm_formula price face_value coupon_rate years - coupon_rate ==
  (face_value - price) *
  ((coupon_rate + 200 * / years) * / (face_value + price)).
Proof. intros Hy Hp. unfold ytm_formula. field. split; assumption. Qed.

(** X9.  A bond bought below its face value yields more than its coupon rate,
    a bond bought above its face value yields less. *)
Theorem discount_yields_more_premium_less (self : GiltLadderCalculator)
    (price face_value coupon_rate years : Q) (w : World) :
  0 < price -> 0 < face_value -> 0 <= coupon_rate -> 0 < years ->
  exists ytm,
    calculate_yield_to_maturity self price face_value coupon_rate years w =
      Ok (ytm, w) /\
    (price < face_value -> coupon_rate < ytm) /\
    (face_value < price -> ytm < coupon_rate).
Proof.
  intros Hp Hf Hc Hy. eexists.
  split; [apply calculate_yield_to_maturity_ok; lra |].
  assert (Hd : ytm_formula price face_value coupon_rate years - coupon_rate ==
               (face_value - price) *
               ((coupon_rate + 200 * / years) * / (face_value + price))).
  { apply ytm_formula_less_coupon; lra. }
  assert (Hk : 0 < (coupon_rate + 200 * / years) * / (face_value + price)).
  { apply Qmult_lt_0_compat.
    - pose proof (Qinv_lt_0_compat years Hy). lra.
    - apply Qinv_lt_0_compat. lra. }
  revert Hd Hk.
  generalize ((coupon_rate + 200 * / years) * / (face_value + price)).
  intros k Hd Hk. split; intros Hlt.
  - assert (0 < (face_value - price) * k)
      by (apply Qmult_lt_0_compat; lra).
    lra.
  - assert (0 < (price - face_value) * k)
      by (apply Qmult_lt_0_compat; lra).
    lra.
Qed.

Lemma discount_yields_more_premium_less_witness :
  0 < 95 /\ 0 < 100 /\ 0 <= 4.25 /\ 0 < 7 /\ 95 < 100 /\
  exists ytm,
    calculate_yield_to_maturity __init__ 95 100 4.25 7 (fixed_clock 2024) =
      Ok (ytm, fixed_clock 2024) /\
    4.25 < ytm.
Proof.
  assert (P0 : 0 < 95) by reflexivity.
  assert (P1 : 0 < 100) by reflexivity.
  assert (P2 : 0 <= 4.25) by discriminate.
  assert (P3 : 0 < 7) by reflexivity.
  assert (P4 : 95 < 100) by reflexivity.
  refine (conj P0 (conj P1 (conj P2 (conj P3 (conj P4 _))))).
  destruct (discount_yields_more_premium_less __init__ 95 100 4.25 7
              (fixed_clock 2024) P0 P1 P2 P3) as [ytm [Hrun [Hdisc _]]].
  exists ytm. split; [exact Hrun | exact (Hdisc P4)].
Defined.

(** X10.  A higher coupon rate gives a higher yield: each point of coupon adds
    [2 * face_value / (face_value + price)] points of yield. *)
Theorem yield_grows_with_coupon (self : GiltLadderCalculator)
    (price face_value coupon1 coupon2 years : Q) (w : World) :
  0 < price -> 0 < face_value -> 0 < years -> coupon1 < coupon2 ->
  exists ytm1 ytm2,
    calculate_yield_to_maturity self price face_value coupon1 years w =
      Ok (ytm1, w) /\
    calculate_yield_to_maturity self price face_value coupon2 years w =
      Ok (ytm2, w) /\
    ytm1 < ytm2 /\
    ytm2 - ytm1 ==
    (coupon2 - coupon1) * (2 * face_value / (face_value + price)).
Proof.
  intros Hp Hf Hy Hc. eexists. eexists.
  split; [apply calculate_yield_to_maturity_ok; lra |].
  split; [apply calculate_yield_to_maturity_ok; lra |].
  assert (Hd : ytm_formula price face_value coupon2 years -
               ytm_formula price face_value coupon1 years ==
               (coupon2 - coupon1) * (2 * face_value / (face_value + price))).
  { unfold ytm_formula. field. split; lra. }
  split; [| exact Hd].
  assert (Hk : 0 < 2 * face_value / (face_value + price)).
  { apply Qlt_shift_div_l; lra. }
  assert (0 < (coupon2 - coupon1) * (2 * face_value / (face_value + price)))
    by (apply Qmult_lt_0_compat; lra).
  lra.
Qed.

Lemma yield_grows_with_coupon_witness :
  0 < 95 /\ 0 < 100 /\ 0 < 7 /\ 4 < 5 /\
  exists ytm1 ytm2,
    calculate_yield_to_maturity __init__ 95 100 4 7 (fixed_clock 2024) =
      Ok (ytm1, fixed_clock 2024) /\
    calculate_yield_to_maturity __init__ 95 100 5 7 (fixed_clock 2024) =
      Ok (ytm2, fixed_clock 2024) /\
    ytm1 < ytm2 /\
    ytm2 - ytm1 == (5 - 4) * (2 * 100 / (100 + 95)).
Proof.
  assert (P0 : 0 < 95) by reflexivity.
  assert (P1 : 0 < 100) by reflexivity.
  assert (P2 : 0 < 7) by reflexivity.
  assert (P3 : 4 < 5) by reflexivity.
  refine (conj P0 (conj P1 (conj P2 (conj P3 _)))).
  apply (yield_grows_with_coupon __init__ 95 100 4 5 7 (fixed_clock 2024)
           P0 P1 P2 P3).
Defined.

(** X11.  The yield depends on the price relative to the face value only:
    quoting price and face value in another unit (per 1 or per 100 of
    nominal) leaves it unchanged. *)
Theorem yield_is_scale_invariant (self : GiltLadderCalculator)
    (unit price face_value coupon_rate years : Q) (w : World) :
  0 < unit -> ~ years == 0 -> ~ face_value + price == 0 ->
  exists ytm ytm',
    calculate_yield_to_maturity self price face_value coupon_rate years w =
      Ok (ytm, w) /\
    calculate_yield_to_maturity self (unit * price) (unit * face_value)
      coupon_rate years w = Ok (ytm', w) /\
    ytm' == ytm.
Proof.
  intros Hu Hy Hp.
  assert (Hup : ~ unit * face_value + unit * price == 0).
  { intros H. apply Hp.
    assert (Hz : unit * (face_value + price) == 0) by (rewrite <- H; ring).
    apply Qmult_integral in Hz. destruct Hz as [Hz | Hz]; [lra | exact Hz]. }
  eexists. eexists.
  split; [apply calculate_yield_to_maturity_ok; assumption |].
  split; [apply calculate_yield_to_maturity_ok; assumption |].
  unfold ytm_formula. field. repeat split; try assumption; lra.
Qed.

Lemma yield_is_scale_invariant_witness :
  0 < 0.01 /\ ~ 7 == 0 /\ ~ 100 + 95 == 0 /\
  exists ytm ytm',
    calculate_yield_to_maturity __init__ 95 100 4.25 7 (fixed_clock 2024) =
      Ok (ytm, fixed_clock 2024) /\
    calculate_yield_to_maturity __init__ (0.01 * 95) (0.01 * 100) 4.25 7
      (fixed_clock 2024) = Ok (ytm', fixed_clock 2024) /\
    ytm' == ytm.
Proof.
  assert (P0 : 0 < 0.01) by reflexivity.
  assert (P1 : ~ 7 == 0) by discriminate.
  assert (P2 : ~ 100 + 95 == 0) by discriminate.
  refine (conj P0 (conj P1 (conj P2 _))).
  apply (yield_is_scale_invariant __init__ 0.01 95 100 4.25 7
           (fixed_clock 2024) P0 P1 P2).
Defined.

(** ** The page *)


Lemma bind_ext {A B : Type} (c : py A) (k1 k2 : A -> py B) (w : World) :
  (forall a w', k1 a w' = k2 a w') ->
  (x <- c ;; k1 x) w = (x <- c ;; k2 x) w.
Proof.
  intros Hk. unfold bind. destruct (c w) as [[a w'] |]; [apply Hk | reflexivity].
Qed.

(** [main] as its three steps that can raise, around [dashboard_of]. *)
Lemma main_unfold (ui : Sidebar.t) (w : World) :
  main ui w =
  (sipp_rows <-
     create_bond_ladder __init__
       (invested (Sidebar.sipp_value ui) (Sidebar.cash_buffer_percent ui))
       (Sidebar.ladder_years ui) (Sidebar.target_yield ui) ;;
   isa_rows <-
     create_bond_ladder __init__
       (invested (Sidebar.isa_value ui) (Sidebar.cash_buffer_percent ui))
       (Sidebar.ladder_years ui)
       (Sidebar.target_yield ui + Sidebar.isa_yield_premium ui) ;;
   ratio <-
     net_income (dashboard_of ui sipp_rows isa_rows).(tax_calc) //
     inject_Z (Sidebar.target_income ui) ;;
   ret (dashboard_of ui sipp_rows isa_rows)) w.
Proof.
  unfold main. cbv zeta.
  rewrite (bind_ok _ _ _ _ _ (truediv_100 _ _)).
  rewrite (bind_ok _ _ _ _ _ (truediv_100 _ _)).
  fold (cash_kept (Sidebar.sipp_value ui) (Sidebar.cash_buffer_percent ui)).
  fold (cash_kept (Sidebar.isa_value ui) (Sidebar.cash_buffer_percent ui)).
  fold (invested (Sidebar.sipp_value ui) (Sidebar.cash_buffer_percent ui)).
  fold (invested (Sidebar.isa_value ui) (Sidebar.cash_buffer_percent ui)).
  apply bind_ext. intros sl w1. apply bind_ext. intros il w2.
  rewrite (bind_ok _ _ _ _ _ (calculate_tax_liability_run _ _ _ _)).
  cbn [dashboard_of tax_calc]. unfold bind, truediv.
  destruct (Qeq_bool (inject_Z (Sidebar.target_income ui)) 0); reflexivity.
Qed.

Lemma cash_share_bounds (percent : Z) :
  (0 <= percent <= 20)%Z ->
  0 <= inject_Z percent / 100 /\ inject_Z percent / 100 <= 0.2.
Proof.
  intros [Hlo Hhi]. rewrite Zle_Qle in Hlo. rewrite Zle_Qle in Hhi.
  change (inject_Z 0) with 0 in Hlo. change (inject_Z 20) with 20 in Hhi.
  split.
  - apply Qle_shift_div_l; [reflexivity | lra].
  - apply Qle_shift_div_r; [reflexivity | lra].
Qed.

Lemma invested_positive (account_value percent : Z) :
  (0 < account_value)%Z -> (0 <= percent <= 20)%Z ->
  0 < invested account_value percent.
Proof.
  intros Hv Hp. rewrite Zlt_Qlt in Hv. change (inject_Z 0) with 0 in Hv.
  destruct (cash_share_bounds percent Hp) as [Hlo Hhi].
  unfold invested, cash_kept. revert Hlo Hhi.
  generalize (inject_Z percent / 100). intros q Hlo Hhi. nra.
Qed.


Lemma default_sidebar_within_bounds : within_widget_bounds default_sidebar.
Proof. unfold within_widget_bounds. cbn. repeat split; discriminate. Qed.

(** [main] runs through when both accounts hold money and the target
    income is above 0. *)
Lemma main_runs (ui : Sidebar.t) (w : World) :
  within_widget_bounds ui ->
  (0 < Sidebar.sipp_value ui)%Z -> (0 < Sidebar.isa_value ui)%Z ->
  (0 < Sidebar.target_income ui)%Z ->
  exists d w',
    main ui w = Ok (d, w') /\
    length (sipp_ladder d) = Z.to_nat (Sidebar.ladder_years ui) /\
    length (isa_ladder d) = Z.to_nat (Sidebar.ladder_years ui).
Proof.
  intros (_ & _ & _ & _ & Hn & _ & _ & Hp) Hs Hi Ht.
  pose proof (invested_positive _ _ Hs Hp) as Hsi.
  pose proof (invested_positive _ _ Hi Hp) as Hii.
  destruct (create_bond_ladder_ok
              (invested (Sidebar.sipp_value ui)
                 (Sidebar.cash_buffer_percent ui))
              (Sidebar.ladder_years ui) (Sidebar.target_yield ui) __init__ w)
    as [w1 E1]; [lra | lia |].
  destruct (create_bond_ladder_ok
              (invested (Sidebar.isa_value ui)
                 (Sidebar.cash_buffer_percent ui))
              (Sidebar.ladder_years ui)
              (Sidebar.target_yield ui + Sidebar.isa_yield_premium ui)
              __init__ w1)
    as [w2 E2]; [lra | lia |].
  assert (Hnz : ~ inject_Z (Sidebar.target_income ui) == 0).
  { rewrite inject_Z_zero. lia. }
  eexists. exists w2. rewrite main_unfold.
  rewrite (bind_ok _ _ _ _ _ E1), (bind_ok _ _ _ _ _ E2).
  rewrite (bind_ok _ _ _ _ _ (truediv_ok _ _ _ Hnz)).
  split; [reflexivity |]. cbn [dashboard_of sipp_ladder isa_ladder].
  split; apply ladder_rows_length.
Qed.



(** X12.  With every widget within its bounds, a SIPP and an ISA that both hold
    money and a target income above 0, [main] raises nothing: the page is
    built, with ladders of [ladder_years] rows each. *)
Theorem main_completes (ui : Sidebar.t) (w : World) :
  within_widget_bounds ui ->
  (0 < Sidebar.sipp_value ui)%Z -> (0 < Sidebar.isa_value ui)%Z ->
  (0 < Sidebar.target_income ui)%Z ->
  exists d w',
    main ui w = Ok (d, w') /\
    length (sipp_ladder d) = Z.to_nat (Sidebar.ladder_years ui) /\
    length (isa_ladder d) = Z.to_nat (Sidebar.ladder_years ui).
Proof.
  intros Hb Hs Hi Ht. apply main_runs; assumption.
Qed.

Lemma main_completes_witness :
  within_widget_bounds default_sidebar /\
  (0 < Sidebar.sipp_value default_sidebar)%Z /\
  (0 < Sidebar.isa_value default_sidebar)%Z /\
  (0 < Sidebar.target_income default_sidebar)%Z /\
  exists d w',
    main default_sidebar (fixed_clock 2026) = Ok (d, w') /\
    length (sipp_ladder d) = Z.to_nat (Sidebar.ladder_years default_sidebar) /\
    length (isa_ladder d) = Z.to_nat (Sidebar.ladder_years default_sidebar).
Proof.
  assert (P1 : (0 < Sidebar.sipp_value default_sidebar)%Z) by reflexivity.
  assert (P2 : (0 < Sidebar.isa_value default_sidebar)%Z) by reflexivity.
  assert (P3 : (0 < Sidebar.target_income default_sidebar)%Z) by reflexivity.
  refine (conj default_sidebar_within_bounds (conj P1 (conj P2 (conj P3 _)))).
  apply (main_completes default_sidebar (fixed_clock 2026)
           default_sidebar_within_bounds P1 P2 P3).
Defined.









(** ** The recommended gilts *)


(** Case analysis along the chain of comparisons of a year. *)
Ltac each_year :=
  repeat (match goal with
          | |- context [Z.eqb ?a ?b] => destruct (Z.eqb_spec a b)
          end; cbv iota).

(** X17.  The years 2028 to 2032 have a named gilt with its own ISIN, no two of
    them the same one; every other year gets the generic name for that year
    and the ISIN "TBD". *)
Theorem gilt_lookup (year : Z) :
  ((2028 <= year <= 2032)%Z ->
   exists name isin,
     gilt_recommendation year = (Named name, isin) /\ isin <> "TBD"%string /\
     forall year', snd (gilt_recommendation year') = isin -> year' = year) /\
  ((year < 2028 \/ 2032 < year)%Z ->
   gilt_recommendation year = (TreasuryGilt year, "TBD"%string)).
Proof.
  split.
  - intros Hy.
    assert (Hcases : (year = 2028 \/ year = 2029 \/ year = 2030 \/
                      year = 2031 \/ year = 2032)%Z) by lia.
    destruct Hcases as [-> | [-> | [-> | [-> | ->]]]];
      (eexists; eexists; split; [reflexivity |]; split; [discriminate |];
       intros year'; unfold gilt_recommendation; each_year;
       cbn [snd]; intros H; first [assumption | discriminate H]).
  - intros Hy. unfold gilt_recommendation. each_year;
      first [lia | reflexivity].
Qed.

Lemma gilt_lookup_witness :
  ((2028 <= 2030 <= 2032)%Z /\
   exists name isin,
     gilt_recommendation 2030 = (Named name, isin) /\ isin <> "TBD"%string) /\
  ((2027 < 2028 \/ 2032 < 2027)%Z /\
   gilt_recommendation 2027 = (TreasuryGilt 2027, "TBD"%string)).
Proof.
  assert (P0 : (2028 <= 2030 <= 2032)%Z) by (split; discriminate).
  assert (P1 : (2027 < 2028 \/ 2032 < 2027)%Z) by (left; reflexivity).
  split.
  - split; [exact P0 |].
    destruct (proj1 (gilt_lookup 2030) P0) as (name & isin & Hrec & Hisin & _).
    exists name, isin. split; assumption.
  - split; [exact P1 |]. apply (proj2 (gilt_lookup 2027) P1).
Defined.


